(** * The trace post-processor of dd-trace-go: ddtrace/tracer/post_processor.go

    A shallow embedding of [readWriteSpan] (the guarded view a post-processing
    callback gets over a finished span) and of [tracer.runProcessor], with the
    properties the specification states about them.

    Go values are modelled as follows.
    - [*span] is an address into a heap of span records; an address the heap
      does not map stands for a nil (or dangling) pointer, and following it
      panics.
    - The span's mutex is a boolean of the record.  [Lock] on a held mutex does
      not return in a sequential run, which the result type records as the
      fault [Deadlock]; [Unlock] of a free mutex is Go's fatal error.
    - [interface{}] values are the dynamic types this file produces: nil,
      string, bool and float64.
    - float64 is Rocq's primitive binary64 float, and Go's [==] on it is
      [PrimFloat.eqb] (IEEE equality: a NaN differs from itself).
    - A Go map is a [gmap]; reading a missing key gives the zero value.
    - Code runs in a state-and-fault monad over the heap and the list of
      messages handed to [log.Debug].

    The statements about a view are made for a span at rest ([resting]): the
    view's pointer is valid and the span's mutex is free, as it is between two
    calls of a callback.  On another world the calls fault, as
    [Tag_held_mutex_blocks] and [Tag_nil_span_panics] show, and
    [SetTag_guarded_total] covers the guarded writes on every world.

    The file also embeds the router options of package mux ([newConfig],
    [defaults] and the field-setting options), in module [mux]. *)

From Stdlib Require Import ZArith Floats.PrimFloat Floats.SpecFloat Floats.FloatOps
  Floats.FloatAxioms.
From stdpp Require Import base strings gmap list option pretty.

(** ** Values *)

(** Go's [interface{}], by dynamic type. *)
Inductive any : Type :=
| Nil
| Str (s : string)
| Bool (b : bool)
| Float64 (f : float).

(** Go's [==] on float64. *)
Definition float_eq (x y : float) : bool := PrimFloat.eqb x y.

(** ** The span record

    The declaration of [span] is not among the source files.  Its fields are
    those post_processor.go reads: Name, Service, Resource, Type, Duration,
    Error, Meta, Metrics, and the mutex behind [s.Lock()] and [s.Unlock()]. *)

Abbreviation loc := nat (only parsing).

(** Modelled from the spec: the declaration of the span record is missing from
    the source files.  "a mutable structure with fields -- operation name,
    service name, resource name, type, duration, error flag, a string-keyed
    metadata map (Meta), and a string-keyed numeric metadata map (Metrics)";
    "the record carries its own mutual-exclusion lock"; [finished] is the
    spec's "already finalized" mark, which post_processor.go never reads. *)
Record span : Type := mkSpan {
  Name : string;
  Service : string;
  Resource : string;
  Type_ : string;
  Duration : Z;
  Error : Z;
  Meta : gmap string string;
  Metrics : gmap string float;
  mu : bool;
  finished : bool
}.

Definition with_mu (b : bool) (sp : span) : span :=
  mkSpan (Name sp) (Service sp) (Resource sp) (Type_ sp) (Duration sp)
         (Error sp) (Meta sp) (Metrics sp) b (finished sp).

Definition with_Meta (m : gmap string string) (sp : span) : span :=
  mkSpan (Name sp) (Service sp) (Resource sp) (Type_ sp) (Duration sp)
         (Error sp) m (Metrics sp) (mu sp) (finished sp).

Definition with_Metrics (m : gmap string float) (sp : span) : span :=
  mkSpan (Name sp) (Service sp) (Resource sp) (Type_ sp) (Duration sp)
         (Error sp) (Meta sp) m (mu sp) (finished sp).

(** [readWriteSpan] wraps [*span]. *)
Record readWriteSpan : Type := mkReadWriteSpan { span_ptr : loc }.

(** The interface type [ddtrace.ReadWriteSpan]: nil, or a [readWriteSpan]. *)
Abbreviation ReadWriteSpan := (option readWriteSpan) (only parsing).

(** ** The world and the monad *)

Record world : Type := mkWorld {
  heap : gmap loc span;
  debug_log : list string
}.

Inductive fault : Type :=
| NilDereference
| Deadlock
| UnlockOfUnlockedMutex.

Inductive outcome (A : Type) : Type :=
| Done (a : A) (w : world)
| Fault (f : fault).
Arguments Done {A} a w.
Arguments Fault {A} f.

Definition M (A : Type) : Type := world → outcome A.

Definition ret {A : Type} (a : A) : M A := λ w, Done a w.

Definition bind {A B : Type} (m : M A) (f : A → M B) : M B := λ w,
  match m w with
  | Done a w' => f a w'
  | Fault e => Fault e
  end.

Declare Scope go_scope.
Delimit Scope go_scope with go.
Notation "x ← y ; z" := (bind y (λ x, z))
  (at level 20, y at level 100, z at level 200, only parsing) : go_scope.
Notation "x ;; z" := (bind x (λ _, z))
  (at level 100, z at level 200, only parsing, right associativity) : go_scope.
Open Scope go_scope.

(** The value a call returned, when it returned. *)
Definition returned {A : Type} (o : outcome A) : option A :=
  match o with
  | Done a _ => Some a
  | Fault _ => None
  end.

(** [*p] read. *)
Definition load (p : loc) : M span := λ w,
  match heap w !! p with
  | Some sp => Done sp w
  | None => Fault NilDereference
  end.

(** [*p = sp]. *)
Definition store (p : loc) (sp : span) : M unit := λ w,
  match heap w !! p with
  | Some _ => Done tt (mkWorld (<[p := sp]> (heap w)) (debug_log w))
  | None => Fault NilDereference
  end.

(** A panic, or a call that does not return. *)
Definition raise {A : Type} (f : fault) : M A := λ _, Fault f.

(** [s.Lock()] on the span's mutex. *)
Definition Lock (p : loc) : M unit :=
  sp ← load p;
  if mu sp then raise Deadlock else store p (with_mu true sp).

(** [s.Unlock()]. *)
Definition Unlock (p : loc) : M unit :=
  sp ← load p;
  if mu sp then store p (with_mu false sp) else raise UnlockOfUnlockedMutex.

(** [defer d] at the head of a body: [d] runs when the body returns, and the
    function returns the body's value.  A fault of the body is the fault of
    the function (no world is kept after a fault, so the deferred call has
    nothing left to act on). *)
Definition defer {A : Type} (d : M unit) (body : M A) : M A :=
  a ← body; d;; ret a.

(** [log.Debug(format, key)] with one [%v] verb: the message handed to the
    logger is the format with the key in the verb's place. *)
Definition log_Debug (before key after : string) : M unit := λ w,
  Done tt (mkWorld (heap w) (debug_log w ++ [before +:+ key +:+ after])).

(** ** What post_processor.go imports

    The constants of package [ext] (here [ext_SpanName] for [ext.SpanName]),
    the three key constants of package [tracer] and [span.setTagLocked] are
    declared in files that are not among the sources; they are taken as
    parameters. *)
Class Extern : Type := {
  ext_SpanName : string;
  ext_ServiceName : string;
  ext_ResourceName : string;
  ext_SpanType : string;
  ext_AnalyticsEvent : string;
  ext_ManualDrop : string;
  ext_ManualKeep : string;
  ext_SamplingPriority : string;
  ext_EventSampleRate : string;
  ext_HTTPCode : string;
  ext_Environment : string;
  ext_ErrorMsg : string;
  ext_ErrorType : string;
  ext_ErrorStack : string;
  ext_ErrorDetails : string;
  keySamplingPriority : string;
  keyMeasured : string;
  keyTopLevel : string;
  (** what [setTagLocked] does with a value that is neither a string nor a
      number: the spec does not say *)
  setTagOther : loc → string → any → M unit
}.

(** [m[k]] on a Go map: the zero value when [k] is missing. *)
Definition index_string (m : gmap string string) (k : string) : string :=
  default EmptyString (m !! k).

Definition index_float (m : gmap string float) (k : string) : float :=
  default 0%float (m !! k).

(** ** post_processor.go *)

Section PostProcessor.
Context `{E : Extern}.

(** [func (s readWriteSpan) Tag(key string) interface{}] *)
Definition Tag (s : readWriteSpan) (key : string) : M any :=
  Lock (span_ptr s);;
  defer (Unlock (span_ptr s)) (
    sp ← load (span_ptr s);
    if decide (key = ext_SpanName) then ret (Str (Name sp))
    else if decide (key = ext_ServiceName) then ret (Str (Service sp))
    else if decide (key = ext_ResourceName) then ret (Str (Resource sp))
    else if decide (key = ext_SpanType) then ret (Str (Type_ sp))
    else if decide (key = ext_AnalyticsEvent) then
      ret (Bool (float_eq (index_float (Metrics sp) ext_EventSampleRate) 1))
    else if decide (key = ext_ManualDrop) then
      ret (Bool (float_eq (index_float (Metrics sp) keySamplingPriority) (-1)))
    else if decide (key = ext_ManualKeep) then
      ret (Bool (float_eq (index_float (Metrics sp) keySamplingPriority) 2))
    else if decide (key = ext_SamplingPriority) then
      match Metrics sp !! keySamplingPriority with
      | Some val => ret (Float64 val)
      | None => ret Nil
      end
    else if decide (key = keySamplingPriority) then
      match Metrics sp !! keySamplingPriority with
      | Some val => ret (Float64 val)
      | None => ret Nil
      end
    else
      match Meta sp !! key with
      | Some val => ret (Str val)
      | None =>
        match Metrics sp !! key with
        | Some val => ret (Float64 val)
        | None => ret Nil
        end
      end).

(** The accessors: one field read under the lock each. *)
Definition GetName (s : readWriteSpan) : M string :=
  Lock (span_ptr s);;
  defer (Unlock (span_ptr s)) (sp ← load (span_ptr s); ret (Name sp)).

Definition GetService (s : readWriteSpan) : M string :=
  Lock (span_ptr s);;
  defer (Unlock (span_ptr s)) (sp ← load (span_ptr s); ret (Service sp)).

Definition GetResource (s : readWriteSpan) : M string :=
  Lock (span_ptr s);;
  defer (Unlock (span_ptr s)) (sp ← load (span_ptr s); ret (Resource sp)).

Definition GetType (s : readWriteSpan) : M string :=
  Lock (span_ptr s);;
  defer (Unlock (span_ptr s)) (sp ← load (span_ptr s); ret (Type_ sp)).

Definition GetDuration (s : readWriteSpan) : M Z :=
  Lock (span_ptr s);;
  defer (Unlock (span_ptr s)) (sp ← load (span_ptr s); ret (Duration sp)).

Definition IsError (s : readWriteSpan) : M bool :=
  Lock (span_ptr s);;
  defer (Unlock (span_ptr s)) (sp ← load (span_ptr s); ret (Z.eqb (Error sp) 1)).

Definition ErrorMessage (s : readWriteSpan) : M string :=
  Lock (span_ptr s);;
  defer (Unlock (span_ptr s))
    (sp ← load (span_ptr s); ret (index_string (Meta sp) ext_ErrorMsg)).

Definition ErrorType (s : readWriteSpan) : M string :=
  Lock (span_ptr s);;
  defer (Unlock (span_ptr s))
    (sp ← load (span_ptr s); ret (index_string (Meta sp) ext_ErrorType)).

Definition ErrorStack (s : readWriteSpan) : M string :=
  Lock (span_ptr s);;
  defer (Unlock (span_ptr s))
    (sp ← load (span_ptr s); ret (index_string (Meta sp) ext_ErrorStack)).

Definition ErrorDetails (s : readWriteSpan) : M string :=
  Lock (span_ptr s);;
  defer (Unlock (span_ptr s))
    (sp ← load (span_ptr s); ret (index_string (Meta sp) ext_ErrorDetails)).

(** Modelled from the spec: [span.setTagLocked] is declared in a file that is
    not among the sources.  "the key/value pair is written into the record's
    generic metadata (string map if value is textual, numeric map if value is
    a number)"; the caller holds the lock.  A key is held by one map at a
    time: the write removes the key from the other map, as the spec's round
    trip "set_tag(k, v); get_tag(k) == v" requires of a number written under
    a key the string map held, [get_tag] reading the string map first.  For a
    value of another type the spec is silent, and the routine is the
    parameter [setTagOther]. *)
Definition setTagLocked (p : loc) (key : string) (value : any) : M unit :=
  sp ← load p;
  match value with
  | Str v =>
    store p (with_Metrics (delete key (Metrics sp))
               (with_Meta (<[key := v]> (Meta sp)) sp))
  | Float64 v =>
    store p (with_Meta (delete key (Meta sp))
               (with_Metrics (<[key := v]> (Metrics sp)) sp))
  | _ => setTagOther p key value
  end.

(** The first case list of [SetTag]'s switch.  (The comment above [SetTag]
    also names the version tag; the switch has no case for it.) *)
Definition protected_keys : list string :=
  [ext_SpanName; ext_SpanType; ext_ResourceName; ext_ServiceName; ext_HTTPCode; ext_Environment;
   keyMeasured; keyTopLevel; ext_AnalyticsEvent; ext_EventSampleRate].

(** The second case list of [SetTag]'s switch. *)
Definition sampling_keys : list string :=
  [ext_ManualKeep; ext_ManualDrop; ext_SamplingPriority; keySamplingPriority].

(** [func (s readWriteSpan) SetTag(key string, value interface{})] *)
Definition SetTag (s : readWriteSpan) (key : string) (value : any) : M unit :=
  Lock (span_ptr s);;
  defer (Unlock (span_ptr s)) (
    if decide (key ∈ protected_keys) then
      log_Debug "Setting the tag " key " in the processor is not allowed";;
      ret tt
    else if decide (key ∈ sampling_keys) then
      log_Debug "Setting sampling priority tag " key
                " in the processor is not allowed";;
      ret tt
    else
      setTagLocked (span_ptr s) key value).

(** [func (s readWriteSpan) SetOperationName(operationName string)] *)
Definition SetOperationName (s : readWriteSpan) (operationName : string) : M unit :=
  SetTag s ext_SpanName (Str operationName).

(** The case labels of [Tag]'s switch, in order.  Go's compiler rejects a
    switch that repeats a constant among its cases, so in a program that
    compiles they are pairwise distinct ([NoDup derived_keys]). *)
Definition derived_keys : list string :=
  [ext_SpanName; ext_ServiceName; ext_ResourceName; ext_SpanType; ext_AnalyticsEvent; ext_ManualDrop;
   ext_ManualKeep; ext_SamplingPriority; keySamplingPriority].

End PostProcessor.

(** [tr.config.postProcessor]: nil, or the registered callback. *)
Record config : Type := mkConfig {
  postProcessor : option (list ReadWriteSpan → M bool)
}.

Record tracer : Type := mkTracer { config_ : config }.

(** [func newReadWriteSpanSlice(spans []*span) []ddtrace.ReadWriteSpan]:
    [make] gives a slice of nil interfaces, the loop assigns each index. *)
Definition newReadWriteSpanSlice (spans : list loc) : list ReadWriteSpan :=
  let rwSlice := replicate (length spans) None in
  fold_left (λ rw '(i, span), <[i := Some (mkReadWriteSpan span)]> rw)
            (imap pair spans) rwSlice.

(** [func (tr *tracer) runProcessor(spans []*span) bool] *)
Definition runProcessor (tr : tracer) (spans : list loc) : M bool :=
  match postProcessor (config_ tr) with
  | None => ret true
  | Some processor => processor (newReadWriteSpanSlice spans)
  end.

(** ** The router options of package mux (src/unnamed/part_000)

    [newConfig], [defaults] and the options that set a field of
    [routerConfig].  An option is a function on the configuration; Go's
    in-place update through [*routerConfig] is the function's result.
    [WithHeaderTags] is left out: it rests on [strings.ToLower] and
    [strings.TrimSpace] over Unicode. *)

(** [math.IsNaN]: [f != f]. *)
Definition math_IsNaN (f : float) : bool := negb (float_eq f f).

(** [math.NaN()]. *)
Definition math_NaN : float := PrimFloat.nan.

Module mux.

(** What the file imports: types and functions of [net/http], [ddtrace],
    [tracer], [internal] and [globalconfig], and the router's own
    [defaultResourceNamer]; none is declared among the sources. *)
Class Imports : Type := {
  Router : Type;
  Request : Type;
  StartSpanOption : Type;
  FinishOption : Type;
  tracer_Tag : string → any → StartSpanOption;
  tracer_NoDebugStack : FinishOption;
  defaultResourceNamer : Router → Request → string;
  internal_BoolEnv : string → bool → bool;
  globalconfig_AnalyticsRate : float;
  globalconfig_ServiceName : string
}.

Section Options.
Context `{E : Extern} `{I : Imports}.

(** [type routerConfig struct]; a nil function or map is [None]. *)
Record routerConfig : Type := mkRouterConfig {
  serviceName : string;
  spanOpts : list StartSpanOption;
  finishOpts : list FinishOption;
  analyticsRate : float;
  resourceNamer : option (Router → Request → string);
  ignoreRequest : option (Request → bool);
  headersAsTags : option (gmap string string);
  queryParams : bool
}.

Definition set_serviceName (v : string) (cfg : routerConfig) : routerConfig :=
  mkRouterConfig v (spanOpts cfg) (finishOpts cfg) (analyticsRate cfg)
    (resourceNamer cfg) (ignoreRequest cfg) (headersAsTags cfg) (queryParams cfg).

Definition set_spanOpts (v : list StartSpanOption) (cfg : routerConfig) : routerConfig :=
  mkRouterConfig (serviceName cfg) v (finishOpts cfg) (analyticsRate cfg)
    (resourceNamer cfg) (ignoreRequest cfg) (headersAsTags cfg) (queryParams cfg).

Definition set_finishOpts (v : list FinishOption) (cfg : routerConfig) : routerConfig :=
  mkRouterConfig (serviceName cfg) (spanOpts cfg) v (analyticsRate cfg)
    (resourceNamer cfg) (ignoreRequest cfg) (headersAsTags cfg) (queryParams cfg).

Definition set_analyticsRate (v : float) (cfg : routerConfig) : routerConfig :=
  mkRouterConfig (serviceName cfg) (spanOpts cfg) (finishOpts cfg) v
    (resourceNamer cfg) (ignoreRequest cfg) (headersAsTags cfg) (queryParams cfg).

Definition set_resourceNamer (v : option (Router → Request → string))
    (cfg : routerConfig) : routerConfig :=
  mkRouterConfig (serviceName cfg) (spanOpts cfg) (finishOpts cfg) (analyticsRate cfg)
    v (ignoreRequest cfg) (headersAsTags cfg) (queryParams cfg).

Definition set_ignoreRequest (v : option (Request → bool))
    (cfg : routerConfig) : routerConfig :=
  mkRouterConfig (serviceName cfg) (spanOpts cfg) (finishOpts cfg) (analyticsRate cfg)
    (resourceNamer cfg) v (headersAsTags cfg) (queryParams cfg).

Definition set_queryParams (v : bool) (cfg : routerConfig) : routerConfig :=
  mkRouterConfig (serviceName cfg) (spanOpts cfg) (finishOpts cfg) (analyticsRate cfg)
    (resourceNamer cfg) (ignoreRequest cfg) (headersAsTags cfg) v.

(** [type RouterOption func( *routerConfig)] *)
Definition RouterOption : Type := routerConfig → routerConfig.

(** [new(routerConfig)]: every field at its zero value. *)
Definition new_routerConfig : routerConfig :=
  mkRouterConfig EmptyString [] [] 0 None None None false.

(** [func defaults(cfg *routerConfig)] *)
Definition defaults (cfg : routerConfig) : routerConfig :=
  let cfg :=
    if internal_BoolEnv "DD_TRACE_MUX_ANALYTICS_ENABLED" false
    then set_analyticsRate 1 cfg
    else set_analyticsRate globalconfig_AnalyticsRate cfg in
  let cfg := set_serviceName "mux.router" cfg in
  let cfg :=
    let svc := globalconfig_ServiceName in
    if decide (svc ≠ EmptyString) then set_serviceName svc cfg else cfg in
  let cfg := set_resourceNamer (Some defaultResourceNamer) cfg in
  set_ignoreRequest (Some (λ _, false)) cfg.

(** The loop of [newConfig]: [defaults], then each option in order. *)
Definition apply_options (opts : list RouterOption) : routerConfig :=
  fold_left (λ cfg fn, fn cfg) opts (defaults new_routerConfig).

(** [func newConfig(opts []RouterOption) *routerConfig] *)
Definition newConfig (opts : list RouterOption) : routerConfig :=
  let cfg := apply_options opts in
  if negb (math_IsNaN (analyticsRate cfg))
  then set_spanOpts (spanOpts cfg ++
                     [tracer_Tag ext_EventSampleRate (Float64 (analyticsRate cfg))]) cfg
  else cfg.

(** [func WithIgnoreRequest(f func( *http.Request) bool) RouterOption] *)
Definition WithIgnoreRequest (f : option (Request → bool)) : RouterOption :=
  λ cfg, set_ignoreRequest f cfg.

(** [func WithServiceName(name string) RouterOption] *)
Definition WithServiceName (name : string) : RouterOption :=
  λ cfg, set_serviceName name cfg.

(** [func WithSpanOptions(opts ...ddtrace.StartSpanOption) RouterOption] *)
Definition WithSpanOptions (opts : list StartSpanOption) : RouterOption :=
  λ cfg, set_spanOpts opts cfg.

(** [func NoDebugStack() RouterOption] *)
Definition NoDebugStack : RouterOption :=
  λ cfg, set_finishOpts (finishOpts cfg ++ [tracer_NoDebugStack]) cfg.

(** [func WithAnalytics(on bool) RouterOption] *)
Definition WithAnalytics (on : bool) : RouterOption :=
  λ cfg, if on then set_analyticsRate 1 cfg else set_analyticsRate math_NaN cfg.

(** [func WithAnalyticsRate(rate float64) RouterOption] *)
Definition WithAnalyticsRate (rate : float) : RouterOption :=
  λ cfg,
    if PrimFloat.leb 0 rate && PrimFloat.leb rate 1
    then set_analyticsRate rate cfg
    else set_analyticsRate math_NaN cfg.

(** [func WithResourceNamer(namer func( *Router, *http.Request) string) RouterOption] *)
Definition WithResourceNamer (namer : option (Router → Request → string)) : RouterOption :=
  λ cfg, set_resourceNamer namer cfg.

(** [func WithQueryParams() RouterOption] *)
Definition WithQueryParams : RouterOption :=
  λ cfg, set_queryParams true cfg.

(** An option that leaves the analytics rate as it is. *)
Definition keeps_analyticsRate (fn : RouterOption) : Prop :=
  ∀ cfg, analyticsRate (fn cfg) = analyticsRate cfg.

(** The span option [newConfig] appends for a rate: none for NaN. *)
Definition analytics_tag (rate : float) : list StartSpanOption :=
  if math_IsNaN rate then [] else [tracer_Tag ext_EventSampleRate (Float64 rate)].

End Options.
End mux.

(** ** Predicates of the statements *)

(** The view [s] points at the record [sp], whose mutex is free: the state of
    a span between two calls of a callback. *)
Definition resting (w : world) (s : readWriteSpan) (sp : span) : Prop :=
  heap w !! span_ptr s = Some sp ∧ mu sp = false.

(** The world once [p]'s mutex is taken. *)
Definition locked_world (w : world) (p : loc) (sp : span) : world :=
  mkWorld (<[p := with_mu true sp]> (heap w)) (debug_log w).

(** Two outcomes agree up to the debug log: same fault, or same value and
    same heap. *)
Definition same_on_heap {A : Type} (o o' : outcome A) : Prop :=
  match o, o' with
  | Done a w, Done a' w' => a = a' ∧ heap w = heap w'
  | Fault e, Fault e' => e = e'
  | _, _ => False
  end.

(** A computation that neither reads nor writes anything but the heap, the
    debug log apart, which it may extend. *)
Definition heap_only {A : Type} (m : M A) : Prop :=
  ∀ w w', heap w = heap w' → same_on_heap (m w) (m w').

(** The sampling-priority entry of the record's Metrics is present and [==] c. *)
Definition priority_is `{E : Extern} (sp : span) (c : float) : Prop :=
  ∃ f, Metrics sp !! keySamplingPriority = Some f ∧ float_eq f c = true.

(** The first seven case labels of [Tag]'s switch: the keys whose value is
    computed from the record's fields whether or not a map holds the key. *)
Definition field_keys `{E : Extern} : list string :=
  [ext_SpanName; ext_ServiceName; ext_ResourceName; ext_SpanType;
   ext_AnalyticsEvent; ext_ManualDrop; ext_ManualKeep].

(** What [Tag]'s last three statements return for a key: Meta first, then
    Metrics, then nil. *)
Definition generic_tag (sp : span) (key : string) : any :=
  match Meta sp !! key with
  | Some val => Str val
  | None =>
    match Metrics sp !! key with
    | Some val => Float64 val
    | None => Nil
    end
  end.





(** A callback that writes one line to the debug log each time it is invoked,
    naming the number of views it got, and answers [decision]. *)
Definition announcing (decision : bool) (views : list ReadWriteSpan) : M bool :=
  log_Debug "processor invoked with " (pretty (length views)) " views";;
  ret decision.

(** Every method of the view faults with [e] on the world [w] ([key] is the
    operation name of [SetOperationName] too). *)
Definition all_methods_fault `{E : Extern} (s : readWriteSpan) (key : string)
    (value : any) (w : world) (e : fault) : Prop :=
  Tag s key w = Fault e
  ∧ SetTag s key value w = Fault e
  ∧ SetOperationName s key w = Fault e
  ∧ GetName s w = Fault e
  ∧ GetService s w = Fault e
  ∧ GetResource s w = Fault e
  ∧ GetType s w = Fault e
  ∧ GetDuration s w = Fault e
  ∧ IsError s w = Fault e
  ∧ ErrorMessage s w = Fault e
  ∧ ErrorType s w = Fault e
  ∧ ErrorStack s w = Fault e
  ∧ ErrorDetails s w = Fault e.

(** Two outcomes agree as far as the record at [p] goes: same fault, or same
    value and same record at [p]. *)
Definition agree_at {A : Type} (p : loc) (o o' : outcome A) : Prop :=
  match o, o' with
  | Done a w, Done a' w' => a = a' ∧ heap w !! p = heap w' !! p
  | Fault e, Fault e' => e = e'
  | _, _ => False
  end.

(** A computation that reads and writes no record but the one at [p]. *)
Definition local_at {A : Type} (p : loc) (m : M A) : Prop :=
  ∀ w w', heap w !! p = heap w' !! p → agree_at p (m w) (m w').

(** A callback's series of writes through one view, in order. *)
Fixpoint write_all `{E : Extern} (s : readWriteSpan) (writes : list (string * any))
    : M unit :=
  match writes with
  | [] => ret tt
  | (key, value) :: rest => SetTag s key value;; write_all s rest
  end.

(** ** Sample data, for instantiating the statements *)

(** One assignment of the imported constants, pairwise distinct. *)
Definition sample_extern : Extern := {|
  ext_SpanName := "span.name";
  ext_ServiceName := "service.name";
  ext_ResourceName := "resource.name";
  ext_SpanType := "span.type";
  ext_AnalyticsEvent := "analytics.event";
  ext_ManualDrop := "manual.drop";
  ext_ManualKeep := "manual.keep";
  ext_SamplingPriority := "sampling.priority";
  ext_EventSampleRate := "_dd1.sr.eausr";
  ext_HTTPCode := "http.status_code";
  ext_Environment := "env";
  ext_ErrorMsg := "error.msg";
  ext_ErrorType := "error.type";
  ext_ErrorStack := "error.stack";
  ext_ErrorDetails := "error.details";
  keySamplingPriority := "_sampling_priority_v1";
  keyMeasured := "_dd.measured";
  keyTopLevel := "_dd.top_level";
  setTagOther := λ _ _ _, ret tt
|}.

(** A finished web span, kept by the user (priority 2). *)
Definition sample_span : span := {|
  Name := "http.request";
  Service := "web";
  Resource := "GET /users";
  Type_ := "web";
  Duration := 1500;
  Error := 0;
  Meta := {[ "http.method" := "GET"; "custom.flag" := "old" ]};
  Metrics := {[ "_sampling_priority_v1" := 2%float; "retries" := 3%float ]};
  mu := false;
  finished := true
|}.

(** A finished span with no name and empty maps. *)
Definition bare_span : span := {|
  Name := "";
  Service := "";
  Resource := "";
  Type_ := "";
  Duration := 0;
  Error := 0;
  Meta := ∅;
  Metrics := ∅;
  mu := false;
  finished := true
|}.

Definition sample_world : world := {|
  heap := {[ 0 := sample_span; 1 := bare_span ]};
  debug_log := []
|}.

Definition sample_view : readWriteSpan := mkReadWriteSpan 0.
Definition bare_view : readWriteSpan := mkReadWriteSpan 1.

(** A world that holds the sample span and nothing else, with a line logged. *)
Definition other_world : world := {|
  heap := {[ 0 := sample_span ]};
  debug_log := ["a line"]
|}.

(** The sample span with its mutex held. *)
Definition held_world : world := {|
  heap := {[ 0 := with_mu true sample_span ]};
  debug_log := []
|}.

(** One assignment of what package mux imports: span options as key/value
    pairs, an environment with no variable set, no global analytics rate and
    no global service name. *)
Definition sample_imports : mux.Imports := {|
  mux.Router := unit;
  mux.Request := string;
  mux.StartSpanOption := string * any;
  mux.FinishOption := unit;
  mux.tracer_Tag := pair;
  mux.tracer_NoDebugStack := tt;
  mux.defaultResourceNamer := λ _ req, req;
  mux.internal_BoolEnv := λ _ def, def;
  mux.globalconfig_AnalyticsRate := math_NaN;
  mux.globalconfig_ServiceName := EmptyString
|}.

(** ** The monad's equations *)

Lemma bind_Done {A B : Type} (m : M A) (f : A → M B) w a w' :
  m w = Done a w' → bind m f w = f a w'.
Proof. unfold bind. intros ->. reflexivity. Qed.

Lemma bind_Fault {A B : Type} (m : M A) (f : A → M B) w e :
  m w = Fault e → bind m f w = Fault e.
Proof. unfold bind. intros ->. reflexivity. Qed.

Lemma with_mu_release sp : mu sp = false → with_mu false (with_mu true sp) = sp.
Proof. destruct sp; simpl; intros ->; reflexivity. Qed.

Lemma Lock_resting w p sp :
  heap w !! p = Some sp → mu sp = false →
  Lock p w = Done tt (locked_world w p sp).
Proof.
  intros Hp Hmu. unfold Lock, bind, load, store. rewrite Hp, Hmu, Hp.
  reflexivity.
Qed.

Lemma Lock_held w p sp :
  heap w !! p = Some sp → mu sp = true → Lock p w = Fault Deadlock.
Proof. intros Hp Hmu. unfold Lock, bind, load. rewrite Hp, Hmu. reflexivity. Qed.

Lemma Lock_nil w p : heap w !! p = None → Lock p w = Fault NilDereference.
Proof. intros Hp. unfold Lock, bind, load. rewrite Hp. reflexivity. Qed.

Lemma Unlock_held w p sp :
  heap w !! p = Some sp → mu sp = true →
  Unlock p w = Done tt (mkWorld (<[p := with_mu false sp]> (heap w)) (debug_log w)).
Proof.
  intros Hp Hmu. unfold Unlock, bind, load, store. rewrite Hp, Hmu, Hp.
  reflexivity.
Qed.

Lemma locked_world_lookup w p sp :
  heap (locked_world w p sp) !! p = Some (with_mu true sp).
Proof. unfold locked_world. simpl. apply lookup_insert_eq. Qed.

(** Releasing the mutex after a body that left the record as the lock found
    it restores the heap. *)
Lemma unlock_restores w p sp l :
  heap w !! p = Some sp → mu sp = false →
  Unlock p (mkWorld (heap (locked_world w p sp)) l) = Done tt (mkWorld (heap w) l).
Proof.
  intros Hp Hmu.
  erewrite Unlock_held; [| apply locked_world_lookup | reflexivity].
  simpl. rewrite insert_insert_eq, with_mu_release by assumption.
  rewrite insert_id by assumption. reflexivity.
Qed.

(** A critical section whose body leaves the heap as the lock made it: the
    call returns the body's value, the heap is the one before the call, and
    the debug log is the body's. *)
Lemma critical_frame {A : Type} p (body : M A) w sp a l :
  heap w !! p = Some sp → mu sp = false →
  body (locked_world w p sp) = Done a (mkWorld (heap (locked_world w p sp)) l) →
  (Lock p;; defer (Unlock p) body) w = Done a (mkWorld (heap w) l).
Proof.
  intros Hp Hmu Hbody.
  erewrite bind_Done by (apply Lock_resting; eassumption).
  unfold defer.
  erewrite bind_Done by exact Hbody.
  erewrite bind_Done by (apply unlock_restores; assumption).
  reflexivity.
Qed.

(** A critical section whose body only reads the record: the call returns the
    body's value and leaves the world as it was. *)
Lemma critical_read {A : Type} p (body : span → M A) w sp a :
  heap w !! p = Some sp → mu sp = false →
  (∀ w', body (with_mu true sp) w' = Done a w') →
  (Lock p;; defer (Unlock p) (sp' ← load p; body sp')) w = Done a w.
Proof.
  intros Hp Hmu Hbody.
  rewrite (critical_frame p _ w sp a (debug_log w) Hp Hmu).
  - destruct w; reflexivity.
  - erewrite bind_Done; [apply Hbody |].
    unfold load. rewrite locked_world_lookup. reflexivity.
Qed.


(** ** Computations that depend on the heap only *)

Lemma same_on_heap_returned {A : Type} (o o' : outcome A) :
  same_on_heap o o' → returned o = returned o'.
Proof. destruct o, o'; simpl; intuition congruence. Qed.

Lemma heap_only_ret {A : Type} (a : A) : heap_only (ret a).
Proof. intros w w' Hw. simpl. auto. Qed.

Lemma heap_only_raise {A : Type} (e : fault) : heap_only (@raise A e).
Proof. intros w w' Hw. reflexivity. Qed.

Lemma heap_only_bind {A B : Type} (m : M A) (f : A → M B) :
  heap_only m → (∀ a, heap_only (f a)) → heap_only (bind m f).
Proof.
  intros Hm Hf w w' Hw. unfold bind.
  specialize (Hm w w' Hw).
  destruct (m w) as [a w1 | e], (m w') as [a' w1' | e']; simpl in Hm;
    try contradiction; [| assumption].
  destruct Hm as [-> Hw1]. apply Hf, Hw1.
Qed.

Lemma heap_only_load p : heap_only (load p).
Proof.
  intros w w' Hw. unfold load. rewrite <- Hw.
  destruct (heap w !! p); simpl; auto.
Qed.

Lemma heap_only_store p sp : heap_only (store p sp).
Proof.
  intros w w' Hw. unfold store. rewrite <- Hw.
  destruct (heap w !! p); simpl; auto.
Qed.

Lemma heap_only_Lock p : heap_only (Lock p).
Proof.
  apply heap_only_bind; [apply heap_only_load |].
  intros sp. destruct (mu sp); [apply (heap_only_raise Deadlock) | apply heap_only_store].
Qed.

Lemma heap_only_Unlock p : heap_only (Unlock p).
Proof.
  apply heap_only_bind; [apply heap_only_load |].
  intros sp. destruct (mu sp);
    [apply heap_only_store | apply (heap_only_raise UnlockOfUnlockedMutex)].
Qed.

Lemma heap_only_defer {A : Type} (d : M unit) (body : M A) :
  heap_only d → heap_only body → heap_only (defer d body).
Proof.
  intros Hd Hbody. apply heap_only_bind; [assumption |].
  intros a. apply heap_only_bind; [assumption |].
  intros _. apply heap_only_ret.
Qed.

Section Reads.
Context `{E : Extern}.

Lemma heap_only_Tag s key : heap_only (Tag s key).
Proof.
  unfold Tag.
  apply heap_only_bind; [apply heap_only_Lock | intros _].
  apply heap_only_defer; [apply heap_only_Unlock |].
  apply heap_only_bind; [apply heap_only_load | intros sp].
  repeat case_decide;
    repeat match goal with
           | |- context [match ?m !! ?k with _ => _ end] => destruct (m !! k)
           end;
    apply heap_only_ret.
Qed.

(** Under a free mutex every read returns, and leaves the world as it was. *)
Lemma Tag_returns s key w sp :
  resting w s sp → ∃ a, Tag s key w = Done a w.
Proof.
  intros [Hp Hmu]. unfold Tag.
  match goal with
  | |- ∃ a, bind _ (λ _, defer _ (bind _ ?body)) w = _ =>
    assert (∃ a, ∀ w', body (with_mu true sp) w' = Done a w') as [a Ha]
  end.
  { simpl. repeat case_decide;
      repeat match goal with
             | |- context [match ?m !! ?k with _ => _ end] => destruct (m !! k)
             end;
      eexists; intros w'; reflexivity. }
  exists a. apply critical_read with (sp := sp); assumption.
Qed.

End Reads.

Lemma GetName_resting s w sp : resting w s sp → GetName s w = Done (Name sp) w.
Proof. intros [Hp Hmu]. apply (critical_read _ (λ r, ret (Name r)) w sp); auto. Qed.

Lemma GetService_resting s w sp : resting w s sp → GetService s w = Done (Service sp) w.
Proof. intros [Hp Hmu]. apply (critical_read _ (λ r, ret (Service r)) w sp); auto. Qed.

Lemma GetResource_resting s w sp : resting w s sp → GetResource s w = Done (Resource sp) w.
Proof. intros [Hp Hmu]. apply (critical_read _ (λ r, ret (Resource r)) w sp); auto. Qed.

Lemma GetType_resting s w sp : resting w s sp → GetType s w = Done (Type_ sp) w.
Proof. intros [Hp Hmu]. apply (critical_read _ (λ r, ret (Type_ r)) w sp); auto. Qed.

Lemma GetDuration_resting s w sp : resting w s sp → GetDuration s w = Done (Duration sp) w.
Proof. intros [Hp Hmu]. apply (critical_read _ (λ r, ret (Duration r)) w sp); auto. Qed.

Lemma IsError_resting s w sp :
  resting w s sp → IsError s w = Done (Z.eqb (Error sp) 1) w.
Proof. intros [Hp Hmu]. apply (critical_read _ (λ r, ret (Z.eqb (Error r) 1)) w sp); auto. Qed.

Lemma resting_same_heap w w' s sp :
  heap w' = heap w → resting w s sp → resting w' s sp.
Proof. unfold resting. intros ->. auto. Qed.

(** ** Writes through the view *)

Section Writes.
Context `{E : Extern}.

(** A write to a key of the first case list: the call logs one line, returns,
    and the heap is the one before the call. *)
Lemma SetTag_protected_run s P v w sp :
  P ∈ protected_keys → resting w s sp →
  SetTag s P v w
  = Done tt (mkWorld (heap w)
               (debug_log w ++
                ["Setting the tag " +:+ P +:+ " in the processor is not allowed"])).
Proof.
  intros HP [Hp Hmu]. unfold SetTag.
  apply critical_frame with (sp := sp); [assumption | assumption |].
  rewrite decide_True by assumption. reflexivity.
Qed.

(** A write to a key of the second case list (and not of the first). *)
Lemma SetTag_sampling_run s S v w sp :
  S ∉ protected_keys → S ∈ sampling_keys → resting w s sp →
  SetTag s S v w
  = Done tt (mkWorld (heap w)
               (debug_log w ++
                ["Setting sampling priority tag " +:+ S +:+
                 " in the processor is not allowed"])).
Proof.
  intros HnP HS [Hp Hmu]. unfold SetTag.
  apply critical_frame with (sp := sp); [assumption | assumption |].
  rewrite decide_False, decide_True by assumption. reflexivity.
Qed.

(** Either way the record is not written, whatever its [finished] mark. *)
Lemma SetTag_guarded s k v w sp :
  k ∈ protected_keys ∨ k ∈ sampling_keys → resting w s sp →
  ∃ l, SetTag s k v w = Done tt (mkWorld (heap w) l).
Proof.
  intros Hk Hrest. destruct (decide (k ∈ protected_keys)) as [HP | HnP].
  - eexists. apply SetTag_protected_run with (sp := sp); assumption.
  - destruct Hk as [HP | HS]; [contradiction |].
    eexists. apply SetTag_sampling_run with (sp := sp); assumption.
Qed.

(** On any world -- nil pointer, mutex held or free -- a write to a key of
    either case list never changes the heap: it faults before writing, or
    returns as above. *)
Lemma SetTag_guarded_total s k v w :
  k ∈ protected_keys ∨ k ∈ sampling_keys →
  match SetTag s k v w with
  | Done _ w' => heap w' = heap w
  | Fault _ => True
  end.
Proof.
  intros Hk. destruct (heap w !! span_ptr s) as [sp |] eqn:Hp.
  - destruct (mu sp) eqn:Hmu.
    + unfold SetTag. erewrite bind_Fault; [exact I |].
      apply Lock_held with (sp := sp); assumption.
    + destruct (SetTag_guarded s k v w sp Hk (conj Hp Hmu)) as [l ->]. reflexivity.
  - unfold SetTag. erewrite bind_Fault; [exact I |]. apply Lock_nil, Hp.
Qed.

(** C1.  For every key [P] of the protected-field set and every value [v],
    [SetTag(P, v)] on a view whose span is at rest returns without a fault,
    logs one debug line, and leaves the heap of span records as it was; so
    [Tag] of any key, [GetName], [GetService], [GetResource], [GetType] and
    [GetDuration] return after the call what the record held before it, and
    Meta and Metrics are the maps of before.  ([SetTag] has no result, so
    returning without a fault is returning no error.) *)
Theorem SetTag_protected_frame s P v w sp :
  P ∈ protected_keys → resting w s sp →
  ∃ w', SetTag s P v w = Done tt w'
      ∧ debug_log w'
        = debug_log w ++ ["Setting the tag " +:+ P +:+ " in the processor is not allowed"]
      ∧ heap w' = heap w
      ∧ heap w' !! span_ptr s = Some sp
      ∧ (∀ k, returned (Tag s k w') = returned (Tag s k w)
              ∧ is_Some (returned (Tag s k w)))
      ∧ returned (GetName s w') = Some (Name sp)
      ∧ returned (GetService s w') = Some (Service sp)
      ∧ returned (GetResource s w') = Some (Resource sp)
      ∧ returned (GetType s w') = Some (Type_ sp)
      ∧ returned (GetDuration s w') = Some (Duration sp).
Proof.
  intros HP Hrest. eexists. split.
  { apply SetTag_protected_run with (sp := sp); assumption. }
  match goal with |- debug_log ?w1 = _ ∧ _ => set (w' := w1) end.
  assert (Hheap : heap w' = heap w) by reflexivity.
  assert (Hrest' : resting w' s sp) by (apply (resting_same_heap w); assumption).
  split; [reflexivity |]. split; [exact Hheap |]. split; [apply Hrest' |]. split.
  { intros k. split.
    - apply same_on_heap_returned, heap_only_Tag, Hheap.
    - destruct (Tag_returns s k w sp Hrest) as [a ->]. simpl. eauto. }
  rewrite (GetName_resting s w' sp), (GetService_resting s w' sp),
    (GetResource_resting s w' sp), (GetType_resting s w' sp),
    (GetDuration_resting s w' sp) by assumption.
  simpl. auto.
Qed.

(** C5.  For every sampling-priority-related key [S] and every value [v],
    [SetTag(S, v)] on a view over a finalized span at rest returns without a
    fault and leaves the heap of span records as it was; [Tag(S)] returns
    after the call what it returned before. *)
Theorem SetTag_sampling_noop s S v w sp :
  S ∈ sampling_keys → resting w s sp → finished sp = true →
  ∃ w', SetTag s S v w = Done tt w'
      ∧ heap w' = heap w
      ∧ returned (Tag s S w') = returned (Tag s S w)
      ∧ is_Some (returned (Tag s S w)).
Proof.
  intros HS Hrest _.
  destruct (SetTag_guarded s S v w sp (or_intror HS) Hrest) as [l Hrun].
  eexists. split; [exact Hrun |]. split; [reflexivity |]. split.
  - apply same_on_heap_returned, heap_only_Tag. reflexivity.
  - destruct (Tag_returns s S w sp Hrest) as [a ->]. simpl. eauto.
Qed.

(** C9.  [SetOperationName(name)] is [SetTag(ext.SpanName, name)]; on a view
    whose span is at rest it returns without a fault and leaves the heap of
    span records as it was, so [GetName] still returns the record's name. *)
Theorem SetOperationName_noop s name w sp :
  resting w s sp →
  SetOperationName s name = SetTag s ext_SpanName (Str name)
  ∧ ∃ w', SetOperationName s name w = Done tt w'
        ∧ heap w' = heap w
        ∧ returned (GetName s w') = Some (Name sp)
        ∧ returned (GetName s w) = Some (Name sp).
Proof.
  intros Hrest. split; [reflexivity |].
  unfold SetOperationName. eexists. split.
  { apply SetTag_protected_run with (sp := sp); [| assumption].
    unfold protected_keys. apply elem_of_cons. left. reflexivity. }
  split; [reflexivity |].
  rewrite (GetName_resting s w sp) by assumption.
  rewrite (GetName_resting s _ sp) by (apply (resting_same_heap w); [reflexivity | assumption]).
  simpl. auto.
Qed.

End Writes.

(** ** Reads through the view *)

Ltac split_NoDup H :=
  unfold derived_keys in H;
  repeat (apply NoDup_cons in H; destruct H as [? H]);
  repeat match goal with
         | Hn : _ ∉ (_ :: _) |- _ => apply not_elem_of_cons in Hn; destruct Hn as [? Hn]
         end.

(** Evaluates [Tag] at a case label, the earlier labels being different. *)
Ltac tag_case Hp Hmu sp :=
  unfold Tag; (apply critical_read with (sp := sp); [exact Hp | exact Hmu |]);
  intros ?; simpl;
  repeat (rewrite decide_False by (assumption || (apply not_eq_sym; assumption)));
  try rewrite decide_True by reflexivity;
  repeat match goal with
         | Hm : ?m !! ?k = _ |- context [?m !! ?k] => rewrite Hm
         end;
  reflexivity.

Section Derived.
Context `{E : Extern}.

Lemma Tag_ManualDrop s w sp :
  NoDup derived_keys → resting w s sp →
  Tag s ext_ManualDrop w
  = Done (Bool (float_eq (index_float (Metrics sp) keySamplingPriority) (-1))) w.
Proof. intros Hnd [Hp Hmu]. split_NoDup Hnd. tag_case Hp Hmu sp. Qed.

Lemma Tag_ManualKeep s w sp :
  NoDup derived_keys → resting w s sp →
  Tag s ext_ManualKeep w
  = Done (Bool (float_eq (index_float (Metrics sp) keySamplingPriority) 2)) w.
Proof. intros Hnd [Hp Hmu]. split_NoDup Hnd. tag_case Hp Hmu sp. Qed.

(** The four keys read from the record's own fields. *)
Lemma Tag_SpanName s w sp :
  resting w s sp → Tag s ext_SpanName w = Done (Str (Name sp)) w.
Proof. intros [Hp Hmu]. tag_case Hp Hmu sp. Qed.

End Derived.

Section Lookups.
Context `{E : Extern}.

Lemma Tag_keySamplingPriority s w sp :
  resting w s sp → ext_SamplingPriority ∉ field_keys → keySamplingPriority ∉ field_keys →
  Tag s keySamplingPriority w
  = Done (from_option Float64 Nil (Metrics sp !! keySamplingPriority)) w
  ∧ Tag s ext_SamplingPriority w
  = Done (from_option Float64 Nil (Metrics sp !! keySamplingPriority)) w.
Proof.
  intros [Hp Hmu] Hpub Hint. unfold field_keys in *.
  repeat match goal with
         | Hn : _ ∉ (_ :: _) |- _ => apply not_elem_of_cons in Hn; destruct Hn as [? Hn]
         end.
  split.
  - destruct (decide (keySamplingPriority = ext_SamplingPriority)) as [Heq | Hne];
      destruct (Metrics sp !! keySamplingPriority) eqn:Hm;
      unfold Tag; (apply critical_read with (sp := sp); [exact Hp | exact Hmu |]);
      intros ?; simpl;
      repeat (rewrite decide_False by assumption);
      repeat (rewrite decide_True by (assumption || reflexivity));
      rewrite ?Hm; reflexivity.
  - destruct (Metrics sp !! keySamplingPriority) eqn:Hm; tag_case Hp Hmu sp.
Qed.

(** A key that is no case label of [Tag]'s switch is looked up in Meta, then
    in Metrics. *)
Lemma Tag_generic s key w sp :
  key ∉ derived_keys → resting w s sp →
  Tag s key w = Done (generic_tag sp key) w.
Proof.
  intros Hkey [Hp Hmu]. unfold derived_keys in Hkey.
  repeat match goal with
         | Hn : _ ∉ (_ :: _) |- _ => apply not_elem_of_cons in Hn; destruct Hn as [? Hn]
         end.
  unfold generic_tag.
  destruct (Meta sp !! key) eqn:Hmeta; [| destruct (Metrics sp !! key) eqn:Hmetrics];
    tag_case Hp Hmu sp.
Qed.

End Lookups.

Section ReadClaims.
Context `{E : Extern}.

Lemma NoDup_derived_not_field :
  NoDup derived_keys →
  (ext_SamplingPriority ∉ field_keys) ∧ (keySamplingPriority ∉ field_keys).
Proof.
  intros Hnd. split_NoDup Hnd. unfold field_keys.
  split; repeat (apply not_elem_of_cons; split; [apply not_eq_sym; assumption |]);
    apply not_elem_of_nil.
Qed.

Lemma float_eq_index (m : gmap string float) (k : string) (c : float) :
  float_eq 0 c = false →
  float_eq (index_float m k) c = true ↔ (∃ f, m !! k = Some f ∧ float_eq f c = true).
Proof.
  intros Hzero. unfold index_float. destruct (m !! k) as [f |]; simpl.
  - split; [eauto |]. intros (f' & [= <-] & Hf). exact Hf.
  - rewrite Hzero. split; [discriminate |]. intros (f' & [=] & _).
Qed.

(** C4.  On a span at rest, [Tag(ext.ManualKeep)] returns the boolean true
    exactly when the Metrics entry under the internal sampling-priority key is
    present and [==] 2, and [Tag(ext.ManualDrop)] returns true exactly when
    it is present and [==] -1; both return false otherwise, in particular
    when the entry is absent. *)
Theorem Tag_manual_keep_drop s w sp :
  NoDup derived_keys → resting w s sp →
  ∃ keep drop,
    Tag s ext_ManualKeep w = Done (Bool keep) w
    ∧ Tag s ext_ManualDrop w = Done (Bool drop) w
    ∧ (keep = true ↔ priority_is sp 2)
    ∧ (drop = true ↔ priority_is sp (-1))
    ∧ (¬ priority_is sp 2 → ¬ priority_is sp (-1) → keep = false ∧ drop = false)
    ∧ (Metrics sp !! keySamplingPriority = None → keep = false ∧ drop = false).
Proof.
  intros Hnd Hrest.
  exists (float_eq (index_float (Metrics sp) keySamplingPriority) 2),
         (float_eq (index_float (Metrics sp) keySamplingPriority) (-1)).
  assert (Hkeep := float_eq_index (Metrics sp) keySamplingPriority 2 eq_refl).
  assert (Hdrop := float_eq_index (Metrics sp) keySamplingPriority (-1) eq_refl).
  split; [apply Tag_ManualKeep; assumption |].
  split; [apply Tag_ManualDrop; assumption |].
  split; [exact Hkeep |]. split; [exact Hdrop |]. split.
  - intros Hn2 Hn1. unfold priority_is in Hn2, Hn1.
    rewrite <- Hkeep in Hn2. rewrite <- Hdrop in Hn1.
    split; apply not_true_is_false; assumption.
  - intros Hnone. unfold index_float. rewrite Hnone. split; reflexivity.
Qed.

(** C10.  On a span at rest, [Tag(ext.SamplingPriority)] and
    [Tag(keySamplingPriority)] return the same: the Metrics entry under the
    internal key when it is present, nil when it is not. *)
Theorem Tag_sampling_priority_alias s w sp :
  NoDup derived_keys → resting w s sp →
  Tag s ext_SamplingPriority w = Tag s keySamplingPriority w
  ∧ Tag s keySamplingPriority w
    = Done (match Metrics sp !! keySamplingPriority with
            | Some val => Float64 val
            | None => Nil
            end) w.
Proof.
  intros Hnd Hrest. destruct (NoDup_derived_not_field Hnd) as [Hpub Hint].
  destruct (Tag_keySamplingPriority s w sp Hrest Hpub Hint) as [Hi Hp].
  rewrite Hi, Hp. split; [reflexivity |].
  destruct (Metrics sp !! keySamplingPriority); reflexivity.
Qed.

(** C8.  For every key that is no case label of [Tag]'s switch, [Tag] on a
    span at rest returns the Meta entry when Meta holds the key, and reads
    Metrics only when Meta does not; a key of both maps gives the Meta
    value. *)
Theorem Tag_meta_before_metrics s key w sp :
  key ∉ derived_keys → resting w s sp →
  (∀ v, Meta sp !! key = Some v → Tag s key w = Done (Str v) w)
  ∧ (∀ f, Meta sp !! key = None → Metrics sp !! key = Some f →
          Tag s key w = Done (Float64 f) w)
  ∧ (Meta sp !! key = None → Metrics sp !! key = None → Tag s key w = Done Nil w)
  ∧ (∀ v f, Meta sp !! key = Some v → Metrics sp !! key = Some f →
            returned (Tag s key w) = Some (Str v)).
Proof.
  intros Hkey Hrest. rewrite (Tag_generic s key w sp Hkey Hrest).
  unfold generic_tag. repeat split.
  - intros v ->. reflexivity.
  - intros f -> ->. reflexivity.
  - intros -> ->. reflexivity.
  - intros v f -> _. reflexivity.
Qed.

(** C7, as amended.  For every key that is none of the seven keys computed
    from the record's fields and that neither Meta nor Metrics holds -- the
    internal sampling-priority entry being absent too when the key is the
    public sampling-priority key -- [Tag] on a span at rest returns nil, and
    no fault. *)
Theorem Tag_absent_is_nil s key w sp :
  key ∉ field_keys →
  (key = ext_SamplingPriority → Metrics sp !! keySamplingPriority = None) →
  Meta sp !! key = None → Metrics sp !! key = None → resting w s sp →
  Tag s key w = Done Nil w.
Proof.
  intros Hkey Hpub Hmeta Hmetrics [Hp Hmu]. unfold field_keys in Hkey.
  repeat match goal with
         | Hn : _ ∉ (_ :: _) |- _ => apply not_elem_of_cons in Hn; destruct Hn as [? Hn]
         end.
  unfold Tag. apply critical_read with (sp := sp); [exact Hp | exact Hmu |].
  intros w'. simpl.
  repeat (rewrite decide_False by assumption).
  destruct (decide (key = ext_SamplingPriority)) as [Heq | Hne].
  { rewrite (Hpub Heq). reflexivity. }
  destruct (decide (key = keySamplingPriority)) as [Heq | Hne'].
  { rewrite <- Heq, Hmetrics. reflexivity. }
  rewrite Hmeta, Hmetrics. reflexivity.
Qed.

End ReadClaims.

(** ** The round trip of an unprotected write *)



Section RoundTrip.
Context `{E : Extern}.





End RoundTrip.

(** ** Dispatch *)

(** The loop of [newReadWriteSpanSlice] from index [n] on: the slots before
    [n] stay, the others hold the views of the spans in order. *)
Lemma fill_views (spans : list loc) (n : nat) (rwSlice : list ReadWriteSpan) :
  length rwSlice = n + length spans →
  fold_left (λ rw '(i, span), <[i := Some (mkReadWriteSpan span)]> rw)
            (imap (λ i span, (n + i, span)) spans) rwSlice
  = take n rwSlice ++ ((λ span, Some (mkReadWriteSpan span)) <$> spans).
Proof.
  revert n rwSlice. induction spans as [| span spans IH]; intros n rwSlice Hlen.
  - simpl in *. rewrite app_nil_r, take_ge by lia. reflexivity.
  - rewrite imap_cons. simpl.
    rewrite (imap_ext _ (λ i span', (S n + i, span'))); cycle 1.
    { intros i x _. simpl. f_equal. lia. }
    rewrite IH by (rewrite length_insert; simpl in Hlen; lia).
    rewrite Nat.add_0_r.
    rewrite (take_S_r _ n (Some (mkReadWriteSpan span))); cycle 1.
    { apply list_lookup_insert_eq. simpl in Hlen. lia. }
    rewrite take_insert_ge by lia.
    rewrite <- app_assoc. reflexivity.
Qed.

Lemma newReadWriteSpanSlice_fmap (spans : list loc) :
  newReadWriteSpanSlice spans = (λ span, Some (mkReadWriteSpan span)) <$> spans.
Proof.
  unfold newReadWriteSpanSlice.
  change (imap pair spans) with (imap (λ i span, (0 + i, span)) spans).
  rewrite fill_views by (rewrite length_replicate; reflexivity).
  rewrite take_0. reflexivity.
Qed.

(** C2.  With a registered callback, the views handed to it are as many as
    the spans of the batch, the view at index [i] wraps the span at index
    [i], and the dispatch is the callback's one call on these views: same
    value, same world after it, same fault; so its decision is the boolean
    the callback returns, false or true. *)
Theorem runProcessor_registered tr processor (spans : list loc) w :
  postProcessor (config_ tr) = Some processor →
  length (newReadWriteSpanSlice spans) = length spans
  ∧ (∀ i span, spans !! i = Some span →
               newReadWriteSpanSlice spans !! i = Some (Some (mkReadWriteSpan span)))
  ∧ runProcessor tr spans w = processor (newReadWriteSpanSlice spans) w
  ∧ (∀ decision w', processor (newReadWriteSpanSlice spans) w = Done decision w' →
                    runProcessor tr spans w = Done decision w').
Proof.
  intros Hreg. rewrite newReadWriteSpanSlice_fmap.
  split; [apply length_fmap |]. split.
  { intros i span Hi. rewrite list_lookup_fmap, Hi. reflexivity. }
  assert (Hrun : runProcessor tr spans w
                 = processor ((λ span, Some (mkReadWriteSpan span)) <$> spans) w).
  { unfold runProcessor. rewrite Hreg, newReadWriteSpanSlice_fmap. reflexivity. }
  split; [exact Hrun |]. intros decision w' Hcall. rewrite Hrun. exact Hcall.
Qed.

(** A callback that logs one line per invocation leaves exactly one line:
    the dispatch invokes it once, with one view per span. *)
Lemma runProcessor_invokes_once decision (spans : list loc) w :
  runProcessor (mkTracer (mkConfig (Some (announcing decision)))) spans w
  = Done decision
      (mkWorld (heap w)
         (debug_log w ++
          ["processor invoked with " +:+ pretty (length spans) +:+ " views"])).
Proof.
  unfold runProcessor, announcing. simpl.
  rewrite newReadWriteSpanSlice_fmap, length_fmap. reflexivity.
Qed.

(** C6.  With no callback registered, the dispatch of any batch, the empty
    one included, returns true and leaves the world -- every span record --
    as it was. *)
Theorem runProcessor_unregistered tr (spans : list loc) w :
  postProcessor (config_ tr) = None →
  runProcessor tr spans w = Done true w
  ∧ runProcessor tr [] w = Done true w.
Proof.
  intros Hnone. unfold runProcessor. rewrite Hnone. split; reflexivity.
Qed.

(** ** The statements at the sample data *)

(** Decides a closed decidable proposition by evaluation. *)
Ltac by_evaluation := refine (bool_decide_unpack _ _); vm_compute; exact I.

Lemma sample_view_resting : resting sample_world sample_view sample_span.
Proof. split; reflexivity. Defined.

Lemma bare_view_resting : resting sample_world bare_view bare_span.
Proof. split; reflexivity. Defined.

Lemma sample_derived_keys_NoDup : NoDup (derived_keys (E := sample_extern)).
Proof. by_evaluation. Defined.

Example Tag_sample_values :
  returned (Tag (E := sample_extern) sample_view "service.name" sample_world)
  = Some (Str "web")
  ∧ returned (Tag (E := sample_extern) sample_view "manual.keep" sample_world)
    = Some (Bool true)
  ∧ returned (Tag (E := sample_extern) sample_view "manual.drop" sample_world)
    = Some (Bool false)
  ∧ returned (Tag (E := sample_extern) sample_view "http.method" sample_world)
    = Some (Str "GET")
  ∧ returned (Tag (E := sample_extern) sample_view "retries" sample_world)
    = Some (Float64 3)
  ∧ returned (Tag (E := sample_extern) sample_view "unknown" sample_world)
    = Some Nil.
Proof. repeat split; vm_compute; reflexivity. Qed.

Example Tag_held_mutex_blocks :
  Tag (E := sample_extern) sample_view "service.name"
      (mkWorld {[ 0 := with_mu true sample_span ]} [])
  = Fault Deadlock.
Proof. vm_compute. reflexivity. Qed.

Example Tag_nil_span_panics :
  Tag (E := sample_extern) (mkReadWriteSpan 7) "service.name" sample_world
  = Fault NilDereference.
Proof. vm_compute. reflexivity. Qed.

Example newReadWriteSpanSlice_sample :
  newReadWriteSpanSlice [4; 2; 9]
  = [Some (mkReadWriteSpan 4); Some (mkReadWriteSpan 2); Some (mkReadWriteSpan 9)]
  ∧ newReadWriteSpanSlice [] = [].
Proof. split; reflexivity. Qed.

(** C1 at the sample data: a write of [ext.ServiceName]. *)
Lemma SetTag_protected_frame_witness :
  ∃ w', SetTag (E := sample_extern) sample_view "service.name" (Str "api") sample_world
        = Done tt w'
      ∧ debug_log w'
        = debug_log sample_world ++
          ["Setting the tag " +:+ "service.name" +:+ " in the processor is not allowed"]
      ∧ heap w' = heap sample_world
      ∧ heap w' !! span_ptr sample_view = Some sample_span
      ∧ (∀ k, returned (Tag (E := sample_extern) sample_view k w')
              = returned (Tag (E := sample_extern) sample_view k sample_world)
              ∧ is_Some (returned (Tag (E := sample_extern) sample_view k sample_world)))
      ∧ returned (GetName sample_view w') = Some "http.request"
      ∧ returned (GetService sample_view w') = Some "web"
      ∧ returned (GetResource sample_view w') = Some "GET /users"
      ∧ returned (GetType sample_view w') = Some "web"
      ∧ returned (GetDuration sample_view w') = Some 1500%Z.
Proof.
  apply (SetTag_protected_frame (E := sample_extern) sample_view "service.name"
           (Str "api") sample_world sample_span).
  - by_evaluation.
  - exact sample_view_resting.
Defined.

(** C5 at the sample data: a write of [ext.ManualDrop] on a finished span. *)
Lemma SetTag_sampling_noop_witness :
  ∃ w', SetTag (E := sample_extern) sample_view "manual.drop" (Bool true) sample_world
        = Done tt w'
      ∧ heap w' = heap sample_world
      ∧ returned (Tag (E := sample_extern) sample_view "manual.drop" w')
        = returned (Tag (E := sample_extern) sample_view "manual.drop" sample_world)
      ∧ is_Some (returned (Tag (E := sample_extern) sample_view "manual.drop" sample_world)).
Proof.
  apply (SetTag_sampling_noop (E := sample_extern) sample_view "manual.drop"
           (Bool true) sample_world sample_span).
  - by_evaluation.
  - exact sample_view_resting.
  - reflexivity.
Defined.

(** C9 at the sample data. *)
Lemma SetOperationName_noop_witness :
  SetOperationName (E := sample_extern) sample_view "renamed"
  = SetTag (E := sample_extern) sample_view "span.name" (Str "renamed")
  ∧ ∃ w', SetOperationName (E := sample_extern) sample_view "renamed" sample_world
          = Done tt w'
        ∧ heap w' = heap sample_world
        ∧ returned (GetName sample_view w') = Some "http.request"
        ∧ returned (GetName sample_view sample_world) = Some "http.request".
Proof.
  apply (SetOperationName_noop (E := sample_extern) sample_view "renamed"
           sample_world sample_span).
  exact sample_view_resting.
Defined.

(** C4 at the sample data: a span of priority 2. *)
Lemma Tag_manual_keep_drop_witness :
  ∃ keep drop,
    Tag (E := sample_extern) sample_view "manual.keep" sample_world
    = Done (Bool keep) sample_world
    ∧ Tag (E := sample_extern) sample_view "manual.drop" sample_world
      = Done (Bool drop) sample_world
    ∧ (keep = true ↔ priority_is (E := sample_extern) sample_span 2)
    ∧ (drop = true ↔ priority_is (E := sample_extern) sample_span (-1))
    ∧ (¬ priority_is (E := sample_extern) sample_span 2 →
       ¬ priority_is (E := sample_extern) sample_span (-1) →
       keep = false ∧ drop = false)
    ∧ (Metrics sample_span !! "_sampling_priority_v1" = None →
       keep = false ∧ drop = false).
Proof.
  apply (Tag_manual_keep_drop (E := sample_extern) sample_view sample_world sample_span).
  - exact sample_derived_keys_NoDup.
  - exact sample_view_resting.
Defined.

(** C10 at the sample data. *)
Lemma Tag_sampling_priority_alias_witness :
  Tag (E := sample_extern) sample_view "sampling.priority" sample_world
  = Tag (E := sample_extern) sample_view "_sampling_priority_v1" sample_world
  ∧ Tag (E := sample_extern) sample_view "_sampling_priority_v1" sample_world
    = Done (Float64 2) sample_world.
Proof.
  apply (Tag_sampling_priority_alias (E := sample_extern) sample_view sample_world
           sample_span).
  - exact sample_derived_keys_NoDup.
  - exact sample_view_resting.
Defined.

(** C8 at the sample data: a key that Meta holds. *)
Lemma Tag_meta_before_metrics_witness :
  (∀ v, Meta sample_span !! "custom.flag" = Some v →
        Tag (E := sample_extern) sample_view "custom.flag" sample_world
        = Done (Str v) sample_world)
  ∧ (∀ f, Meta sample_span !! "custom.flag" = None →
          Metrics sample_span !! "custom.flag" = Some f →
          Tag (E := sample_extern) sample_view "custom.flag" sample_world
          = Done (Float64 f) sample_world)
  ∧ (Meta sample_span !! "custom.flag" = None →
     Metrics sample_span !! "custom.flag" = None →
     Tag (E := sample_extern) sample_view "custom.flag" sample_world
     = Done Nil sample_world)
  ∧ (∀ v f, Meta sample_span !! "custom.flag" = Some v →
            Metrics sample_span !! "custom.flag" = Some f →
            returned (Tag (E := sample_extern) sample_view "custom.flag" sample_world)
            = Some (Str v)).
Proof.
  apply (Tag_meta_before_metrics (E := sample_extern) sample_view "custom.flag"
           sample_world sample_span).
  - by_evaluation.
  - exact sample_view_resting.
Defined.

(** C7 as amended, at the sample data: a key of neither map. *)
Lemma Tag_absent_is_nil_witness :
  Tag (E := sample_extern) sample_view "unknown" sample_world = Done Nil sample_world.
Proof.
  apply (Tag_absent_is_nil (E := sample_extern) sample_view "unknown" sample_world
           sample_span).
  - by_evaluation.
  - discriminate.
  - reflexivity.
  - reflexivity.
  - exact sample_view_resting.
Defined.

(** C7 as stated fails.  Neither map of [bare_span] holds [ext.SpanName] or
    [ext.ManualKeep], yet [Tag] returns the empty string and false; neither
    map of [sample_span] holds [ext.SamplingPriority], yet [Tag] returns 2. *)
Lemma Tag_absent_key_counterexample :
  (Meta bare_span !! @ext_SpanName sample_extern = None
   ∧ Metrics bare_span !! @ext_SpanName sample_extern = None
   ∧ Tag (E := sample_extern) bare_view (@ext_SpanName sample_extern) sample_world
     = Done (Str "") sample_world)
  ∧ (Meta bare_span !! @ext_ManualKeep sample_extern = None
     ∧ Metrics bare_span !! @ext_ManualKeep sample_extern = None
     ∧ Tag (E := sample_extern) bare_view (@ext_ManualKeep sample_extern) sample_world
       = Done (Bool false) sample_world)
  ∧ (Meta sample_span !! @ext_SamplingPriority sample_extern = None
     ∧ Metrics sample_span !! @ext_SamplingPriority sample_extern = None
     ∧ Tag (E := sample_extern) sample_view (@ext_SamplingPriority sample_extern) sample_world
       = Done (Float64 2) sample_world).
Proof.
  split; [| split]; (split; [reflexivity | split; [reflexivity |]]).
  - exact (Tag_SpanName (E := sample_extern) bare_view sample_world bare_span
             bare_view_resting).
  - vm_compute. reflexivity.
  - vm_compute. reflexivity.
Qed.


Example SetTag_Tag_round_trip_samples :
  (∃ w', SetTag (E := sample_extern) sample_view "custom.flag" (Str "x") sample_world
         = Done tt w'
       ∧ Tag (E := sample_extern) sample_view "custom.flag" w' = Done (Str "x") w')
  ∧ (∃ w', SetTag (E := sample_extern) sample_view "retries" (Str "many") sample_world
           = Done tt w'
         ∧ Tag (E := sample_extern) sample_view "retries" w' = Done (Str "many") w')
  ∧ (∃ w', SetTag (E := sample_extern) sample_view "attempts" (Float64 3) sample_world
           = Done tt w'
         ∧ Tag (E := sample_extern) sample_view "attempts" w' = Done (Float64 3) w').
Proof. repeat split; eexists; split; vm_compute; reflexivity. Qed.


(** C2 at the sample data: a batch of two spans and a callback that answers false. *)
Lemma runProcessor_registered_witness :
  length (newReadWriteSpanSlice [0; 1]) = 2
  ∧ (∀ i span, [0; 1] !! i = Some span →
               newReadWriteSpanSlice [0; 1] !! i = Some (Some (mkReadWriteSpan span)))
  ∧ runProcessor (mkTracer (mkConfig (Some (announcing false)))) [0; 1] sample_world
    = announcing false (newReadWriteSpanSlice [0; 1]) sample_world
  ∧ (∀ decision w',
       announcing false (newReadWriteSpanSlice [0; 1]) sample_world = Done decision w' →
       runProcessor (mkTracer (mkConfig (Some (announcing false)))) [0; 1] sample_world
       = Done decision w').
Proof.
  apply (runProcessor_registered (mkTracer (mkConfig (Some (announcing false))))
           (announcing false) [0; 1] sample_world).
  reflexivity.
Defined.

Example runProcessor_decisions :
  returned (runProcessor (mkTracer (mkConfig (Some (announcing false)))) [0; 1] sample_world)
  = Some false
  ∧ returned (runProcessor (mkTracer (mkConfig (Some (announcing true)))) [0; 1] sample_world)
    = Some true
  ∧ returned (runProcessor (mkTracer (mkConfig (Some (announcing true)))) [] sample_world)
    = Some true.
Proof. repeat split; vm_compute; reflexivity. Qed.

(** C6 at the sample data. *)
Lemma runProcessor_unregistered_witness :
  runProcessor (mkTracer (mkConfig None)) [0; 1] sample_world = Done true sample_world
  ∧ runProcessor (mkTracer (mkConfig None)) [] sample_world = Done true sample_world.
Proof.
  apply (runProcessor_unregistered (mkTracer (mkConfig None)) [0; 1] sample_world).
  reflexivity.
Defined.

(** * Further properties of post_processor.go *)

(** ** float64 comparisons *)

(** The constants of the switch, as IEEE 754 values. *)
Lemma Prim2SF_two : Prim2SF 2 = S754_finite false 4503599627370496 (-51).
Proof. vm_compute. reflexivity. Qed.

Lemma Prim2SF_minus_one : Prim2SF (-1) = S754_finite true 4503599627370496 (-52).
Proof. vm_compute. reflexivity. Qed.

(** A float64 that [==] 2 does not [==] -1. *)
Lemma float_eq_two_not_minus_one (f : float) :
  float_eq f 2 = true → float_eq f (-1) = false.
Proof.
  unfold float_eq. rewrite !FloatAxioms.eqb_spec.
  rewrite Prim2SF_two, Prim2SF_minus_one. unfold SFeqb, SFcompare.
  destruct (Prim2SF f) as [s | s | | s m e]; try discriminate;
    try (destruct s; discriminate).
  destruct s; [discriminate | reflexivity].
Qed.

(** ** The remaining cases of [Tag] *)

Section MoreReads.
Context `{E : Extern}.

Lemma Tag_AnalyticsEvent s w sp :
  NoDup derived_keys → resting w s sp →
  Tag s ext_AnalyticsEvent w
  = Done (Bool (float_eq (index_float (Metrics sp) ext_EventSampleRate) 1)) w.
Proof. intros Hnd [Hp Hmu]. split_NoDup Hnd. tag_case Hp Hmu sp. Qed.

Lemma Tag_ServiceName s w sp :
  NoDup derived_keys → resting w s sp →
  Tag s ext_ServiceName w = Done (Str (Service sp)) w.
Proof. intros Hnd [Hp Hmu]. split_NoDup Hnd. tag_case Hp Hmu sp. Qed.

Lemma Tag_ResourceName s w sp :
  NoDup derived_keys → resting w s sp →
  Tag s ext_ResourceName w = Done (Str (Resource sp)) w.
Proof. intros Hnd [Hp Hmu]. split_NoDup Hnd. tag_case Hp Hmu sp. Qed.

Lemma Tag_SpanType s w sp :
  NoDup derived_keys → resting w s sp →
  Tag s ext_SpanType w = Done (Str (Type_ sp)) w.
Proof. intros Hnd [Hp Hmu]. split_NoDup Hnd. tag_case Hp Hmu sp. Qed.

(** X1.  On a span at rest, [Tag(ext.AnalyticsEvent)] returns a boolean, never
    nil: true exactly when Metrics holds an entry under [ext.EventSampleRate]
    that [==] 1.0, and false when Metrics holds no such entry. *)
Theorem Tag_analytics_event s w sp :
  NoDup derived_keys → resting w s sp →
  ∃ on, Tag s ext_AnalyticsEvent w = Done (Bool on) w
      ∧ (on = true ↔
         (∃ rate, Metrics sp !! ext_EventSampleRate = Some rate
                  ∧ float_eq rate 1 = true))
      ∧ (Metrics sp !! ext_EventSampleRate = None → on = false).
Proof.
  intros Hnd Hrest.
  exists (float_eq (index_float (Metrics sp) ext_EventSampleRate) 1).
  split; [apply Tag_AnalyticsEvent; assumption |].
  split; [apply float_eq_index; reflexivity |].
  intros Hnone. unfold index_float. rewrite Hnone. reflexivity.
Qed.

(** X2.  On a span at rest, [Tag] of the four keys [ext.SpanName],
    [ext.ServiceName], [ext.ResourceName] and [ext.SpanType] returns the
    string [GetName], [GetService], [GetResource] and [GetType] return: the
    record's field, whatever Meta and Metrics hold under these keys. *)
Theorem Tag_fields_agree_with_getters s w sp :
  NoDup derived_keys → resting w s sp →
  (returned (Tag s ext_SpanName w) = Some (Str (Name sp))
   ∧ returned (GetName s w) = Some (Name sp))
  ∧ (returned (Tag s ext_ServiceName w) = Some (Str (Service sp))
     ∧ returned (GetService s w) = Some (Service sp))
  ∧ (returned (Tag s ext_ResourceName w) = Some (Str (Resource sp))
     ∧ returned (GetResource s w) = Some (Resource sp))
  ∧ (returned (Tag s ext_SpanType w) = Some (Str (Type_ sp))
     ∧ returned (GetType s w) = Some (Type_ sp)).
Proof.
  intros Hnd Hrest.
  rewrite (Tag_SpanName s w sp), (Tag_ServiceName s w sp),
    (Tag_ResourceName s w sp), (Tag_SpanType s w sp) by assumption.
  rewrite (GetName_resting s w sp), (GetService_resting s w sp),
    (GetResource_resting s w sp), (GetType_resting s w sp) by assumption.
  simpl. auto 10.
Qed.

(** X3.  On a span at rest, [Tag(ext.ManualKeep)] and [Tag(ext.ManualDrop)]
    are never both true: no float64 [==] both 2 and -1. *)
Theorem manual_keep_drop_exclusive s w sp :
  NoDup derived_keys → resting w s sp →
  returned (Tag s ext_ManualKeep w) = Some (Bool true) →
  returned (Tag s ext_ManualDrop w) = Some (Bool false).
Proof.
  intros Hnd Hrest.
  rewrite (Tag_ManualKeep s w sp), (Tag_ManualDrop s w sp) by assumption.
  simpl. intros [= Hkeep]. rewrite (float_eq_two_not_minus_one _ Hkeep).
  reflexivity.
Qed.

End MoreReads.

(** ** The lock discipline of the methods *)

(** A method starts by taking the mutex: on a nil pointer it panics, on a held
    mutex it does not return. *)
Lemma Lock_first_nil {A : Type} p (k : unit → M A) w :
  heap w !! p = None → bind (Lock p) k w = Fault NilDereference.
Proof. intros Hp. apply bind_Fault, Lock_nil, Hp. Qed.

Lemma Lock_first_held {A : Type} p (k : unit → M A) w sp :
  heap w !! p = Some sp → mu sp = true → bind (Lock p) k w = Fault Deadlock.
Proof. intros Hp Hmu. apply bind_Fault. apply Lock_held with (sp := sp); assumption. Qed.

Section Discipline.
Context `{E : Extern}.

Lemma ErrorMessage_resting s w sp :
  resting w s sp → ErrorMessage s w = Done (index_string (Meta sp) ext_ErrorMsg) w.
Proof.
  intros [Hp Hmu].
  apply (critical_read _ (λ r, ret (index_string (Meta r) ext_ErrorMsg)) w sp); auto.
Qed.

Lemma ErrorType_resting s w sp :
  resting w s sp → ErrorType s w = Done (index_string (Meta sp) ext_ErrorType) w.
Proof.
  intros [Hp Hmu].
  apply (critical_read _ (λ r, ret (index_string (Meta r) ext_ErrorType)) w sp); auto.
Qed.

Lemma ErrorStack_resting s w sp :
  resting w s sp → ErrorStack s w = Done (index_string (Meta sp) ext_ErrorStack) w.
Proof.
  intros [Hp Hmu].
  apply (critical_read _ (λ r, ret (index_string (Meta r) ext_ErrorStack)) w sp); auto.
Qed.

Lemma ErrorDetails_resting s w sp :
  resting w s sp → ErrorDetails s w = Done (index_string (Meta sp) ext_ErrorDetails) w.
Proof.
  intros [Hp Hmu].
  apply (critical_read _ (λ r, ret (index_string (Meta r) ext_ErrorDetails)) w sp); auto.
Qed.

(** X4.  On a span at rest every read method returns, and the world after
    the call is the world before it: the mutex is free again, no record is
    written and nothing is logged.  [IsError] is true exactly for an Error
    field of 1, and the four error accessors return the Meta entry, or the
    empty string when Meta has none. *)
Theorem reads_leave_the_world s w sp :
  resting w s sp →
  (∀ key, ∃ v, Tag s key w = Done v w)
  ∧ GetName s w = Done (Name sp) w
  ∧ GetService s w = Done (Service sp) w
  ∧ GetResource s w = Done (Resource sp) w
  ∧ GetType s w = Done (Type_ sp) w
  ∧ GetDuration s w = Done (Duration sp) w
  ∧ IsError s w = Done (bool_decide (Error sp = 1%Z)) w
  ∧ ErrorMessage s w = Done (default EmptyString (Meta sp !! ext_ErrorMsg)) w
  ∧ ErrorType s w = Done (default EmptyString (Meta sp !! ext_ErrorType)) w
  ∧ ErrorStack s w = Done (default EmptyString (Meta sp !! ext_ErrorStack)) w
  ∧ ErrorDetails s w = Done (default EmptyString (Meta sp !! ext_ErrorDetails)) w.
Proof.
  intros Hrest.
  split; [intros key; apply Tag_returns with (sp := sp); assumption |].
  rewrite (GetName_resting s w sp), (GetService_resting s w sp),
    (GetResource_resting s w sp), (GetType_resting s w sp),
    (GetDuration_resting s w sp), (IsError_resting s w sp),
    (ErrorMessage_resting s w sp), (ErrorType_resting s w sp),
    (ErrorStack_resting s w sp), (ErrorDetails_resting s w sp) by assumption.
  repeat split.
  f_equal. destruct (Z.eqb_spec (Error sp) 1) as [Heq | Hne].
  - rewrite bool_decide_eq_true_2 by assumption. reflexivity.
  - rewrite bool_decide_eq_false_2 by assumption. reflexivity.
Qed.

(** X5.  A method called through a view whose span pointer is nil panics, and
    a method called while the span's mutex is held does not return: each of
    the thirteen methods takes the lock first, and the lock is not
    reentrant. *)
Theorem methods_fault_without_the_lock s key value w :
  (heap w !! span_ptr s = None → all_methods_fault s key value w NilDereference)
  ∧ (∀ sp, heap w !! span_ptr s = Some sp → mu sp = true →
           all_methods_fault s key value w Deadlock).
Proof.
  split.
  - intros Hp. unfold all_methods_fault, SetOperationName.
    repeat split; apply Lock_first_nil, Hp.
  - intros sp Hp Hmu. unfold all_methods_fault, SetOperationName.
    repeat split; apply Lock_first_held with (sp := sp); assumption.
Qed.

(** X6.  The error accessors and [Tag] differ on a missing entry: for a span
    at rest whose maps hold no [ext.ErrorMsg], [ErrorMessage] returns the
    empty string and [Tag(ext.ErrorMsg)] returns nil; when Meta holds the
    entry both return it.  The same for [ErrorType], [ErrorStack] and
    [ErrorDetails] with their keys.  (The four keys are no case labels of
    [Tag]'s switch.) *)
Theorem error_accessors_and_Tag s w sp :
  ext_ErrorMsg ∉ derived_keys → ext_ErrorType ∉ derived_keys →
  ext_ErrorStack ∉ derived_keys → ext_ErrorDetails ∉ derived_keys →
  resting w s sp →
  ∀ accessor key,
    (accessor, key) ∈ [(ErrorMessage, ext_ErrorMsg); (ErrorType, ext_ErrorType);
                       (ErrorStack, ext_ErrorStack); (ErrorDetails, ext_ErrorDetails)] →
    (∀ text, Meta sp !! key = Some text →
             accessor s w = Done text w ∧ Tag s key w = Done (Str text) w)
    ∧ (Meta sp !! key = None →
       accessor s w = Done EmptyString w
       ∧ (Metrics sp !! key = None → Tag s key w = Done Nil w)
       ∧ (∀ f, Metrics sp !! key = Some f → Tag s key w = Done (Float64 f) w)).
Proof.
  intros Hmsg Htype Hstack Hdetails Hrest accessor key Hin.
  assert (Hcases : (key ∉ derived_keys)
                   ∧ accessor s w = Done (index_string (Meta sp) key) w).
  { repeat (apply elem_of_cons in Hin; destruct Hin as [[= -> ->] | Hin]).
    - split; [assumption | apply ErrorMessage_resting, Hrest].
    - split; [assumption | apply ErrorType_resting, Hrest].
    - split; [assumption | apply ErrorStack_resting, Hrest].
    - split; [assumption | apply ErrorDetails_resting, Hrest].
    - apply elem_of_nil in Hin. contradiction. }
  destruct Hcases as [Hkey ->].
  rewrite (Tag_generic s key w sp Hkey Hrest).
  unfold index_string, generic_tag. split.
  - intros text ->. split; reflexivity.
  - intros ->. split; [reflexivity |]. split.
    + intros ->. reflexivity.
    + intros f ->. reflexivity.
Qed.

End Discipline.

(** ** Guarded writes, on every world and in series *)

Section MoreWrites.
Context `{E : Extern}.

(** X7.  A write to a key of either case list of [SetTag]'s switch, on a span
    at rest, logs exactly one line, which names the key: the line of the
    first case list for a protected key, the line of the second for a
    sampling-priority key that is not protected. *)
Theorem SetTag_guarded_logs_one_line s k v w sp :
  k ∈ protected_keys ∨ k ∈ sampling_keys → resting w s sp →
  ∃ line, SetTag s k v w = Done tt (mkWorld (heap w) (debug_log w ++ [line]))
        ∧ (k ∈ protected_keys →
           line = "Setting the tag " +:+ k +:+ " in the processor is not allowed")
        ∧ ((k ∉ protected_keys) →
           line = "Setting sampling priority tag " +:+ k +:+
                  " in the processor is not allowed").
Proof.
  intros Hk Hrest. destruct (decide (k ∈ protected_keys)) as [HP | HnP].
  - eexists. split; [apply SetTag_protected_run with (sp := sp); assumption |].
    split; [reflexivity | contradiction].
  - destruct Hk as [HP | HS]; [contradiction |].
    eexists. split; [apply SetTag_sampling_run with (sp := sp); assumption |].
    split; [contradiction | reflexivity].
Qed.

(** X8.  On every world the outcome of a write to a key of either case
    list, and of [SetOperationName] with any name, is one of three: with a
    nil span pointer the call panics at the lock, its first statement; with
    the mutex held it does not return from the lock; with the mutex free it
    returns, the heap of span records is the one before the call and one
    line is logged.  The call never faults once it holds the lock. *)
Theorem guarded_write_outcomes s k v name w :
  k ∈ protected_keys ∨ k ∈ sampling_keys →
  match heap w !! span_ptr s with
  | None =>
    Lock (span_ptr s) w = Fault NilDereference
    ∧ SetTag s k v w = Fault NilDereference
    ∧ SetOperationName s name w = Fault NilDereference
  | Some sp =>
    if mu sp
    then Lock (span_ptr s) w = Fault Deadlock
         ∧ SetTag s k v w = Fault Deadlock
         ∧ SetOperationName s name w = Fault Deadlock
    else ∃ line line',
           SetTag s k v w = Done tt (mkWorld (heap w) (debug_log w ++ [line]))
           ∧ SetOperationName s name w
             = Done tt (mkWorld (heap w) (debug_log w ++ [line']))
  end.
Proof.
  intros Hk. destruct (heap w !! span_ptr s) as [sp |] eqn:Hp.
  - destruct (mu sp) eqn:Hmu.
    + split; [apply Lock_held with (sp := sp); assumption |].
      split; apply Lock_first_held with (sp := sp); assumption.
    + assert (Hrest : resting w s sp) by (split; assumption).
      destruct (decide (k ∈ protected_keys)) as [HP | HnP].
      * do 2 eexists. split.
        -- apply SetTag_protected_run with (sp := sp); assumption.
        -- apply SetTag_protected_run with (sp := sp); [| assumption].
           unfold protected_keys. apply elem_of_cons. left. reflexivity.
      * destruct Hk as [HP | HS]; [contradiction |].
        do 2 eexists. split.
        -- apply SetTag_sampling_run with (sp := sp); assumption.
        -- apply SetTag_protected_run with (sp := sp); [| assumption].
           unfold protected_keys. apply elem_of_cons. left. reflexivity.
  - split; [apply Lock_nil, Hp |]. split; apply Lock_first_nil, Hp.
Qed.

Lemma SetTag_guarded_line s k v w sp :
  k ∈ protected_keys ∨ k ∈ sampling_keys → resting w s sp →
  ∃ line, SetTag s k v w = Done tt (mkWorld (heap w) (debug_log w ++ [line])).
Proof.
  intros Hk Hrest. destruct (decide (k ∈ protected_keys)) as [HP | HnP].
  - eexists. apply SetTag_protected_run with (sp := sp); assumption.
  - destruct Hk as [HP | HS]; [contradiction |].
    eexists. apply SetTag_sampling_run with (sp := sp); assumption.
Qed.

(** X9.  A series of writes through one view, each to a key of either case
    list, on a span at rest: the series returns, the heap is the one before
    it (so the span is at rest again, unchanged), and the debug log has grown
    by one line per write. *)
Theorem guarded_writes_compose s (writes : list (string * any)) w sp :
  Forall (λ kv, kv.1 ∈ protected_keys ∨ kv.1 ∈ sampling_keys) writes →
  resting w s sp →
  ∃ lines, write_all s writes w = Done tt (mkWorld (heap w) (debug_log w ++ lines))
         ∧ length lines = length writes.
Proof.
  intros Hall. revert w.
  induction Hall as [| [k v] writes Hk Hall IH]; intros w Hrest.
  - exists []. rewrite app_nil_r. destruct w. split; reflexivity.
  - simpl in Hk. destruct (SetTag_guarded_line s k v w sp Hk Hrest) as [line Hrun].
    destruct (IH (mkWorld (heap w) (debug_log w ++ [line]))) as (lines & Hrest' & Hlen).
    { apply (resting_same_heap w); [reflexivity | assumption]. }
    exists (line :: lines). split; [| simpl; f_equal; exact Hlen].
    simpl. erewrite bind_Done by exact Hrun.
    rewrite Hrest'. simpl. rewrite <- app_assoc. reflexivity.
Qed.

End MoreWrites.

(** ** Locality of the reads *)

Lemma agree_at_returned {A : Type} p (o o' : outcome A) :
  agree_at p o o' → returned o = returned o'.
Proof. destruct o, o'; simpl; intuition congruence. Qed.

Lemma local_ret {A : Type} p (a : A) : local_at p (ret a).
Proof. intros w w' Hw. simpl. auto. Qed.

Lemma local_raise {A : Type} p (e : fault) : local_at p (@raise A e).
Proof. intros w w' Hw. reflexivity. Qed.

Lemma local_bind {A B : Type} p (m : M A) (f : A → M B) :
  local_at p m → (∀ a, local_at p (f a)) → local_at p (bind m f).
Proof.
  intros Hm Hf w w' Hw. unfold bind.
  specialize (Hm w w' Hw).
  destruct (m w) as [a w1 | e], (m w') as [a' w1' | e']; simpl in Hm;
    try contradiction; [| assumption].
  destruct Hm as [-> Hw1]. apply Hf, Hw1.
Qed.

Lemma local_load p : local_at p (load p).
Proof.
  intros w w' Hw. unfold load. rewrite <- Hw.
  destruct (heap w !! p) eqn:Hp; simpl; [| reflexivity].
  split; [reflexivity |]. congruence.
Qed.

Lemma local_store p sp : local_at p (store p sp).
Proof.
  intros w w' Hw. unfold store. rewrite <- Hw.
  destruct (heap w !! p); simpl; [| reflexivity].
  split; [reflexivity |]. rewrite !lookup_insert_eq. reflexivity.
Qed.

Lemma local_Lock p : local_at p (Lock p).
Proof.
  apply local_bind; [apply local_load |].
  intros sp. destruct (mu sp); [apply (local_raise p Deadlock) | apply local_store].
Qed.

Lemma local_Unlock p : local_at p (Unlock p).
Proof.
  apply local_bind; [apply local_load |].
  intros sp. destruct (mu sp);
    [apply local_store | apply (local_raise p UnlockOfUnlockedMutex)].
Qed.

Lemma local_field_read {A : Type} p (g : span → A) :
  local_at p (Lock p;; defer (Unlock p) (sp ← load p; ret (g sp))).
Proof.
  apply local_bind; [apply local_Lock | intros _].
  apply local_bind.
  - apply local_bind; [apply local_load | intros sp; apply local_ret].
  - intros a. apply local_bind; [apply local_Unlock | intros _; apply local_ret].
Qed.

Section Locality.
Context `{E : Extern}.

Lemma local_Tag s key : local_at (span_ptr s) (Tag s key).
Proof.
  unfold Tag.
  apply local_bind; [apply local_Lock | intros _].
  apply local_bind.
  - apply local_bind; [apply local_load | intros sp].
    repeat case_decide;
      repeat match goal with
             | |- context [match ?m !! ?k with _ => _ end] => destruct (m !! k)
             end;
      apply local_ret.
  - intros a. apply local_bind; [apply local_Unlock | intros _; apply local_ret].
Qed.

(** X10.  What a read through a view returns depends on the record of the
    view's own span only: on two worlds that agree on that record -- whatever
    else their heaps and logs hold -- [Tag] of any key and the accessors
    return the same value, or fault alike. *)
Theorem reads_are_local s key w w' :
  heap w !! span_ptr s = heap w' !! span_ptr s →
  returned (Tag s key w) = returned (Tag s key w')
  ∧ returned (GetName s w) = returned (GetName s w')
  ∧ returned (GetService s w) = returned (GetService s w')
  ∧ returned (GetResource s w) = returned (GetResource s w')
  ∧ returned (GetType s w) = returned (GetType s w')
  ∧ returned (GetDuration s w) = returned (GetDuration s w')
  ∧ returned (IsError s w) = returned (IsError s w')
  ∧ returned (ErrorMessage s w) = returned (ErrorMessage s w')
  ∧ returned (ErrorType s w) = returned (ErrorType s w')
  ∧ returned (ErrorStack s w) = returned (ErrorStack s w')
  ∧ returned (ErrorDetails s w) = returned (ErrorDetails s w').
Proof.
  intros Hw.
  split; [apply (agree_at_returned (span_ptr s)), local_Tag, Hw |].
  repeat split; apply (agree_at_returned (span_ptr s));
    apply (local_field_read (span_ptr s) _ w w' Hw).
Qed.

End Locality.

(** ** The slice of views *)

(** X11.  [newReadWriteSpanSlice] leaves no nil slot, maps the concatenation
    of two batches to the concatenation of their views, and maps different
    batches to different slices. *)
Theorem newReadWriteSpanSlice_structure (batch batch' : list loc) :
  (None ∉ newReadWriteSpanSlice batch)
  ∧ newReadWriteSpanSlice (batch ++ batch')
    = newReadWriteSpanSlice batch ++ newReadWriteSpanSlice batch'
  ∧ (newReadWriteSpanSlice batch = newReadWriteSpanSlice batch' ↔ batch = batch').
Proof.
  rewrite !newReadWriteSpanSlice_fmap. split; [| split].
  - intros Hin. apply list_elem_of_fmap in Hin as (span & Hspan & _). discriminate.
  - apply fmap_app.
  - split; [| intros ->; reflexivity].
    revert batch'. induction batch as [| span batch IH]; intros [| span' batch'];
      simpl; try discriminate; [reflexivity |].
    intros [= -> Htail]. f_equal. apply IH, Htail.
Qed.

(** * Properties of the mux router options *)

Lemma Prim2SF_zero : Prim2SF 0 = S754_zero false.
Proof. vm_compute. reflexivity. Qed.

(** A float64 that is [>= 0.0] is not a NaN. *)
Lemma leb_zero_not_NaN (f : float) : PrimFloat.leb 0 f = true → math_IsNaN f = false.
Proof.
  unfold math_IsNaN, float_eq. rewrite FloatAxioms.leb_spec, FloatAxioms.eqb_spec.
  rewrite Prim2SF_zero. unfold SFleb, SFeqb, SFcompare.
  destruct (Prim2SF f) as [s | s | | s m e]; try discriminate;
    try (destruct s; intros _; reflexivity).
  intros _. destruct s; rewrite Z.compare_refl, Pos.compare_cont_refl; reflexivity.
Qed.

Section MuxOptions.
Context `{E : Extern} `{I : mux.Imports}.

Lemma apply_options_app (opts later : list mux.RouterOption) :
  mux.apply_options (opts ++ later)
  = fold_left (λ cfg fn, fn cfg) later (mux.apply_options opts).
Proof. unfold mux.apply_options. apply fold_left_app. Qed.

Lemma fold_keeps_analyticsRate (later : list mux.RouterOption) cfg :
  Forall mux.keeps_analyticsRate later →
  mux.analyticsRate (fold_left (λ cfg fn, fn cfg) later cfg) = mux.analyticsRate cfg.
Proof.
  intros Hall. revert cfg. induction Hall as [| fn later Hfn Hall IH]; intros cfg.
  - reflexivity.
  - simpl. rewrite IH. apply Hfn.
Qed.

Lemma newConfig_spanOpts (opts : list mux.RouterOption) :
  mux.spanOpts (mux.newConfig opts)
  = mux.spanOpts (mux.apply_options opts)
    ++ mux.analytics_tag (mux.analyticsRate (mux.apply_options opts))
  ∧ mux.analyticsRate (mux.newConfig opts) = mux.analyticsRate (mux.apply_options opts).
Proof.
  unfold mux.newConfig, mux.analytics_tag.
  destruct (math_IsNaN (mux.analyticsRate (mux.apply_options opts))); simpl.
  - rewrite app_nil_r. split; reflexivity.
  - split; reflexivity.
Qed.

Lemma analyticsRate_after (opts later : list mux.RouterOption) fn :
  Forall mux.keeps_analyticsRate later →
  mux.analyticsRate (mux.apply_options (opts ++ [fn] ++ later))
  = mux.analyticsRate (fn (mux.apply_options opts)).
Proof.
  intros Hlater. rewrite apply_options_app. simpl.
  apply fold_keeps_analyticsRate, Hlater.
Qed.

(** The options of the file other than the two analytics ones leave the
    analytics rate as it is. *)
Lemma options_keep_analyticsRate f name so namer :
  Forall mux.keeps_analyticsRate
    [mux.WithIgnoreRequest f; mux.WithServiceName name; mux.WithSpanOptions so;
     mux.NoDebugStack; mux.WithResourceNamer namer; mux.WithQueryParams].
Proof. repeat constructor. Qed.

(** X12.  In [newConfig], the last [WithAnalyticsRate(rate)] decides, whatever
    the environment and the options before it say and whatever options
    that keep the rate follow: for [0 <= rate <= 1] the configuration has
    that rate and [tracer.Tag(ext.EventSampleRate, rate)] is appended as last
    span option; for any other rate -- negative, above 1, infinite or NaN --
    the rate is NaN and no tag is appended. *)
Theorem mux_last_analytics_rate_decides (opts later : list mux.RouterOption) rate :
  Forall mux.keeps_analyticsRate later →
  (PrimFloat.leb 0 rate && PrimFloat.leb rate 1 = true →
   mux.analyticsRate (mux.newConfig (opts ++ [mux.WithAnalyticsRate rate] ++ later))
   = rate
   ∧ mux.spanOpts (mux.newConfig (opts ++ [mux.WithAnalyticsRate rate] ++ later))
     = mux.spanOpts (mux.apply_options (opts ++ [mux.WithAnalyticsRate rate] ++ later))
       ++ [mux.tracer_Tag ext_EventSampleRate (Float64 rate)])
  ∧ (PrimFloat.leb 0 rate && PrimFloat.leb rate 1 = false →
     math_IsNaN
       (mux.analyticsRate (mux.newConfig (opts ++ [mux.WithAnalyticsRate rate] ++ later)))
     = true
     ∧ mux.spanOpts (mux.newConfig (opts ++ [mux.WithAnalyticsRate rate] ++ later))
       = mux.spanOpts (mux.apply_options (opts ++ [mux.WithAnalyticsRate rate] ++ later))).
Proof.
  intros Hlater.
  destruct (newConfig_spanOpts (opts ++ [mux.WithAnalyticsRate rate] ++ later))
    as [-> ->].
  rewrite analyticsRate_after by assumption.
  unfold mux.WithAnalyticsRate, mux.analytics_tag. split; intros Hrange.
  - rewrite Hrange. simpl.
    apply andb_true_iff in Hrange as [Hlow _].
    rewrite (leb_zero_not_NaN rate Hlow). split; reflexivity.
  - rewrite Hrange. simpl. split; [reflexivity |]. apply app_nil_r.
Qed.

(** X13.  In [newConfig], the last [WithAnalytics(on)] decides likewise:
    [WithAnalytics(true)] appends [tracer.Tag(ext.EventSampleRate, 1.0)] as
    last span option, and [WithAnalytics(false)] leaves a NaN rate and
    appends no tag, also when the environment variable enables analytics. *)
Theorem mux_last_analytics_switch_decides (opts later : list mux.RouterOption) on :
  Forall mux.keeps_analyticsRate later →
  mux.spanOpts (mux.newConfig (opts ++ [mux.WithAnalytics on] ++ later))
  = mux.spanOpts (mux.apply_options (opts ++ [mux.WithAnalytics on] ++ later))
    ++ (if on then [mux.tracer_Tag ext_EventSampleRate (Float64 1)] else [])
  ∧ (if on
     then mux.analyticsRate (mux.newConfig (opts ++ [mux.WithAnalytics on] ++ later)) = 1%float
     else math_IsNaN
            (mux.analyticsRate (mux.newConfig (opts ++ [mux.WithAnalytics on] ++ later)))
          = true).
Proof.
  intros Hlater.
  destruct (newConfig_spanOpts (opts ++ [mux.WithAnalytics on] ++ later)) as [-> ->].
  rewrite analyticsRate_after by assumption.
  unfold mux.WithAnalytics, mux.analytics_tag.
  destruct on; simpl; split; reflexivity.
Qed.

(** X14.  [WithSpanOptions] replaces the span options set before it, yet
    never drops the analytics tag, which [newConfig] appends after the
    options have run; [NoDebugStack] adds to the finish options set before
    it. *)
Theorem mux_span_and_finish_options (opts : list mux.RouterOption) so :
  mux.spanOpts (mux.newConfig (opts ++ [mux.WithSpanOptions so]))
  = so ++ mux.analytics_tag (mux.analyticsRate (mux.apply_options opts))
  ∧ mux.finishOpts (mux.newConfig (opts ++ [mux.NoDebugStack]))
    = mux.finishOpts (mux.newConfig opts) ++ [mux.tracer_NoDebugStack]
  ∧ mux.finishOpts (mux.newConfig (opts ++ [mux.NoDebugStack; mux.NoDebugStack]))
    = mux.finishOpts (mux.newConfig opts)
      ++ [mux.tracer_NoDebugStack; mux.tracer_NoDebugStack].
Proof.
  split.
  { destruct (newConfig_spanOpts (opts ++ [mux.WithSpanOptions so])) as [-> _].
    rewrite apply_options_app. reflexivity. }
  assert (Hfinish : ∀ l, mux.finishOpts (mux.newConfig l)
                         = mux.finishOpts (mux.apply_options l)).
  { intros l. unfold mux.newConfig.
    destruct (negb (math_IsNaN (mux.analyticsRate (mux.apply_options l))));
      reflexivity. }
  rewrite !Hfinish, !apply_options_app. simpl.
  split; [reflexivity |]. rewrite <- app_assoc. reflexivity.
Qed.

End MuxOptions.

(** ** The further properties at the sample data *)

(** X1 at the sample data: no analytics rate in Metrics. *)
Lemma Tag_analytics_event_witness :
  ∃ on, Tag (E := sample_extern) sample_view "analytics.event" sample_world
        = Done (Bool on) sample_world
      ∧ (on = true ↔
         (∃ rate, Metrics sample_span !! "_dd1.sr.eausr" = Some rate
                  ∧ float_eq rate 1 = true))
      ∧ (Metrics sample_span !! "_dd1.sr.eausr" = None → on = false).
Proof.
  apply (Tag_analytics_event (E := sample_extern) sample_view sample_world sample_span).
  - exact sample_derived_keys_NoDup.
  - exact sample_view_resting.
Defined.

Example Tag_analytics_event_on :
  returned (Tag (E := sample_extern) (mkReadWriteSpan 0) "analytics.event"
              (mkWorld {[ 0 := with_Metrics {[ "_dd1.sr.eausr" := 1%float ]} bare_span ]} []))
  = Some (Bool true)
  ∧ returned (Tag (E := sample_extern) (mkReadWriteSpan 0) "analytics.event"
                (mkWorld {[ 0 := with_Metrics {[ "_dd1.sr.eausr" := 0.5%float ]} bare_span ]} []))
    = Some (Bool false).
Proof. split; vm_compute; reflexivity. Qed.

(** X2 at the sample data. *)
Lemma Tag_fields_agree_with_getters_witness :
  (returned (Tag (E := sample_extern) sample_view "span.name" sample_world)
   = Some (Str "http.request")
   ∧ returned (GetName sample_view sample_world) = Some "http.request")
  ∧ (returned (Tag (E := sample_extern) sample_view "service.name" sample_world)
     = Some (Str "web")
     ∧ returned (GetService sample_view sample_world) = Some "web")
  ∧ (returned (Tag (E := sample_extern) sample_view "resource.name" sample_world)
     = Some (Str "GET /users")
     ∧ returned (GetResource sample_view sample_world) = Some "GET /users")
  ∧ (returned (Tag (E := sample_extern) sample_view "span.type" sample_world)
     = Some (Str "web")
     ∧ returned (GetType sample_view sample_world) = Some "web").
Proof.
  apply (Tag_fields_agree_with_getters (E := sample_extern) sample_view sample_world
           sample_span).
  - exact sample_derived_keys_NoDup.
  - exact sample_view_resting.
Defined.

(** X3 at the sample data: a span of priority 2 is kept, so not dropped. *)
Lemma manual_keep_drop_exclusive_witness :
  returned (Tag (E := sample_extern) sample_view "manual.drop" sample_world)
  = Some (Bool false).
Proof.
  apply (manual_keep_drop_exclusive (E := sample_extern) sample_view sample_world
           sample_span).
  - exact sample_derived_keys_NoDup.
  - exact sample_view_resting.
  - vm_compute. reflexivity.
Defined.

(** X4 at the sample data. *)
Lemma reads_leave_the_world_witness :
  (∀ key, ∃ v, Tag (E := sample_extern) sample_view key sample_world
               = Done v sample_world)
  ∧ GetName sample_view sample_world = Done "http.request" sample_world
  ∧ GetService sample_view sample_world = Done "web" sample_world
  ∧ GetResource sample_view sample_world = Done "GET /users" sample_world
  ∧ GetType sample_view sample_world = Done "web" sample_world
  ∧ GetDuration sample_view sample_world = Done 1500%Z sample_world
  ∧ IsError sample_view sample_world = Done false sample_world
  ∧ ErrorMessage (E := sample_extern) sample_view sample_world
    = Done EmptyString sample_world
  ∧ ErrorType (E := sample_extern) sample_view sample_world
    = Done EmptyString sample_world
  ∧ ErrorStack (E := sample_extern) sample_view sample_world
    = Done EmptyString sample_world
  ∧ ErrorDetails (E := sample_extern) sample_view sample_world
    = Done EmptyString sample_world.
Proof.
  apply (reads_leave_the_world (E := sample_extern) sample_view sample_world
           sample_span).
  exact sample_view_resting.
Defined.

Example methods_fault_sample :
  all_methods_fault (E := sample_extern) (mkReadWriteSpan 7) "custom.flag" (Str "x")
    sample_world NilDereference
  ∧ all_methods_fault (E := sample_extern) sample_view "custom.flag" (Str "x")
      held_world Deadlock.
Proof. split; repeat split; vm_compute; reflexivity. Qed.

(** X6 at the sample data: a span without error message. *)
Lemma error_accessors_and_Tag_witness :
  ErrorMessage (E := sample_extern) sample_view sample_world
  = Done EmptyString sample_world
  ∧ Tag (E := sample_extern) sample_view "error.msg" sample_world
    = Done Nil sample_world.
Proof.
  destruct (error_accessors_and_Tag (E := sample_extern) sample_view sample_world
              sample_span
              ltac:(by_evaluation) ltac:(by_evaluation) ltac:(by_evaluation)
              ltac:(by_evaluation) sample_view_resting
              (ErrorMessage (E := sample_extern)) "error.msg"
              ltac:(constructor))
    as [_ Habsent].
  destruct (Habsent eq_refl) as (Haccessor & Hnil & _).
  split; [exact Haccessor | exact (Hnil eq_refl)].
Defined.

(** X7 at the sample data: a write of [ext.ManualKeep]. *)
Lemma SetTag_guarded_logs_one_line_witness :
  ∃ line, SetTag (E := sample_extern) sample_view "manual.keep" (Bool true) sample_world
          = Done tt (mkWorld (heap sample_world) (debug_log sample_world ++ [line]))
        ∧ ("manual.keep" ∈ protected_keys (E := sample_extern) →
           line = "Setting the tag " +:+ "manual.keep" +:+
                  " in the processor is not allowed")
        ∧ (("manual.keep" ∉ protected_keys (E := sample_extern)) →
           line = "Setting sampling priority tag " +:+ "manual.keep" +:+
                  " in the processor is not allowed").
Proof.
  apply (SetTag_guarded_logs_one_line (E := sample_extern) sample_view "manual.keep"
           (Bool true) sample_world sample_span).
  - right. by_evaluation.
  - exact sample_view_resting.
Defined.

(** X8 at the sample data: a write of [ext.Environment] through a view whose
    span's mutex is free. *)
Lemma guarded_write_outcomes_witness :
  ∃ line line',
    SetTag (E := sample_extern) sample_view "env" (Str "prod") sample_world
    = Done tt (mkWorld (heap sample_world) (debug_log sample_world ++ [line]))
    ∧ SetOperationName (E := sample_extern) sample_view "renamed" sample_world
      = Done tt (mkWorld (heap sample_world) (debug_log sample_world ++ [line'])).
Proof.
  refine (guarded_write_outcomes (E := sample_extern) sample_view "env" (Str "prod")
            "renamed" sample_world _).
  left. by_evaluation.
Defined.

Example guarded_write_outcomes_faults :
  SetTag (E := sample_extern) sample_view "env" (Str "prod") held_world = Fault Deadlock
  ∧ SetTag (E := sample_extern) (mkReadWriteSpan 7) "env" (Str "prod") sample_world
    = Fault NilDereference.
Proof. split; vm_compute; reflexivity. Qed.

(** X9 at the sample data: three rejected writes. *)
Lemma guarded_writes_compose_witness :
  ∃ lines, write_all (E := sample_extern) sample_view
             [("span.name", Str "renamed"); ("manual.drop", Bool true);
              ("env", Str "prod")] sample_world
           = Done tt (mkWorld (heap sample_world) (debug_log sample_world ++ lines))
         ∧ length lines = 3.
Proof.
  apply (guarded_writes_compose (E := sample_extern) sample_view
           [("span.name", Str "renamed"); ("manual.drop", Bool true);
            ("env", Str "prod")] sample_world sample_span).
  - repeat constructor; simpl; (left; by_evaluation) || (right; by_evaluation).
  - exact sample_view_resting.
Defined.

(** X10 at the sample data: two worlds that share the sample span. *)
Lemma reads_are_local_witness :
  returned (Tag (E := sample_extern) sample_view "http.method" sample_world)
  = returned (Tag (E := sample_extern) sample_view "http.method" other_world).
Proof.
  exact (proj1 (reads_are_local (E := sample_extern) sample_view "http.method"
                  sample_world other_world eq_refl)).
Defined.

Example newReadWriteSpanSlice_nil_pointer :
  newReadWriteSpanSlice [7] = [Some (mkReadWriteSpan 7)]
  ∧ GetName (mkReadWriteSpan 7) sample_world = Fault NilDereference.
Proof. split; reflexivity. Qed.

(** X12 at the sample data: a rate in range, followed by a service name. *)
Lemma mux_last_analytics_rate_decides_witness :
  mux.analyticsRate
    (mux.newConfig (E := sample_extern) (I := sample_imports)
       ([mux.WithAnalytics false] ++ [mux.WithAnalyticsRate 0.5]
        ++ [mux.WithServiceName "api"]))
  = 0.5%float
  ∧ mux.spanOpts
      (mux.newConfig (E := sample_extern) (I := sample_imports)
         ([mux.WithAnalytics false] ++ [mux.WithAnalyticsRate 0.5]
          ++ [mux.WithServiceName "api"]))
    = [("_dd1.sr.eausr", Float64 0.5)].
Proof.
  apply (mux_last_analytics_rate_decides (E := sample_extern) (I := sample_imports)
           [mux.WithAnalytics false] [mux.WithServiceName "api"] 0.5).
  - repeat constructor.
  - reflexivity.
Defined.

Example mux_analytics_rate_out_of_range :
  mux.spanOpts (mux.newConfig (E := sample_extern) (I := sample_imports)
                  [mux.WithAnalyticsRate 1.5]) = []
  ∧ mux.spanOpts (mux.newConfig (E := sample_extern) (I := sample_imports)
                    [mux.WithAnalyticsRate (-0.25)]) = []
  ∧ mux.spanOpts (mux.newConfig (E := sample_extern) (I := sample_imports)
                    [mux.WithAnalyticsRate math_NaN]) = []
  ∧ mux.spanOpts (mux.newConfig (E := sample_extern) (I := sample_imports)
                    [mux.WithAnalyticsRate infinity]) = []
  ∧ mux.spanOpts (mux.newConfig (E := sample_extern) (I := sample_imports)
                    [mux.WithAnalyticsRate 0]) = [("_dd1.sr.eausr", Float64 0)]
  ∧ mux.spanOpts (mux.newConfig (E := sample_extern) (I := sample_imports)
                    [mux.WithAnalyticsRate 1]) = [("_dd1.sr.eausr", Float64 1)]
  ∧ mux.spanOpts (mux.newConfig (E := sample_extern) (I := sample_imports) []) = []
  ∧ mux.serviceName (mux.newConfig (E := sample_extern) (I := sample_imports) [])
    = "mux.router".
Proof. repeat split; vm_compute; reflexivity. Qed.

(** X13 at the sample data: analytics switched on, then a span option. *)
Lemma mux_last_analytics_switch_decides_witness :
  mux.spanOpts
    (mux.newConfig (E := sample_extern) (I := sample_imports)
       ([] ++ [mux.WithAnalytics true] ++ [mux.WithSpanOptions (I := sample_imports) [("team", Str "web")]]))
  = [("team", Str "web"); ("_dd1.sr.eausr", Float64 1)].
Proof.
  exact (proj1 (mux_last_analytics_switch_decides (E := sample_extern)
                  (I := sample_imports) [] [mux.WithSpanOptions (I := sample_imports) [("team", Str "web")]]
                  true ltac:(repeat constructor))).
Defined.
